(** * KarmaRepository: a shallow embedding of
    [app/db/repositories/karma_repository.py]

    The repository is a data-access object over one collection of a
    document store.  The collection is a list of documents in natural
    (insertion) order; each repository method is a computation in a small
    state-and-exception monad over the world (the store and the wall
    clock).  Query documents are Python dicts and are modelled as [gmap]s
    keyed by field path; an aggregation pipeline is the composition of its
    stages.  The store keeps timestamps in whole milliseconds, adds points
    in scan order in the arithmetic of their type, and promises no order
    among documents with equal sort keys. *)

From Stdlib Require Import ZArith Floats.
From stdpp Require Import gmap strings list fin_maps sorting list_monad.

Local Open Scope Z_scope.

(** ** The arithmetic of points *)

(** The type of [points] is declared in [models/karma.py]; the repository
    has the store sum points and order totals, and returns the literal
    zero of its own.  [nsum] is the store's [$sum] of the operands in the
    order the accumulator receives them, zero when there is none: how the
    store rounds a sum is its own matter.  [nadd] is addition in the
    language, [nle] the store's sort order on numbers, which is total. *)
Class Numeric (P : Type) : Type := mkNumeric {
  nzero : P;
  nadd : P → P → P;
  nsum : list P → P;
  nsum_nil : nsum [] = nzero;
  nle : relation P;
  nle_dec :: RelDecision nle;
  nle_total :: Total nle;
  nle_trans :: Transitive nle
}.

(** Strictly below, and equal in rank, in the store's order. *)
Definition nlt {P : Type} `{!Numeric P} (x y : P) : Prop := ¬ nle y x.
Definition same_rank {P : Type} `{!Numeric P} (x y : P) : Prop :=
  nle x y ∧ nle y x.

(** Arithmetic without rounding: addition is associative and commutative,
    zero is neutral and the store's sum is the sum, as for integer
    points. *)
Class ExactArithmetic (P : Type) `{!Numeric P} : Prop := mkExact {
  nadd_assoc : ∀ x y z : P, nadd x (nadd y z) = nadd (nadd x y) z;
  nadd_comm : ∀ x y : P, nadd x y = nadd y x;
  nadd_zero_l : ∀ x : P, nadd nzero x = x;
  nsum_exact : ∀ l : list P, nsum l = foldl nadd nzero l
}.

(** Integer points. *)
Global Instance Z_numeric : Numeric Z :=
  {| nzero := 0; nadd := Z.add; nsum := foldl Z.add 0; nsum_nil := eq_refl;
     nle := Z.le; nle_dec := _; nle_total := _; nle_trans := _ |}.

(** Binary64 points, Python's [float] and the store's double.  The order
    is that of the values they denote, every value being a whole multiple
    of [2^-1074]; the two zeros rank equal and NaN ranks below all
    numbers. *)
Definition float_key (x : float) : Z :=
  match Prim2SF x with
  | S754_nan => - 2 ^ 2200
  | S754_infinity false => 2 ^ 2100
  | S754_infinity true => - 2 ^ 2100
  | S754_zero _ => 0
  | S754_finite s m e => (if s then -1 else 1) * (Z.pos m * 2 ^ (e + 1074))
  end.

Definition float_le (x y : float) : Prop := float_key x ≤ float_key y.

Global Instance float_le_dec : RelDecision float_le.
Proof. intros x y. unfold float_le. apply _. Defined.

Global Instance float_le_total : Total float_le.
Proof. intros x y. unfold float_le. lia. Qed.

Global Instance float_le_trans : Transitive float_le.
Proof. intros x y z. unfold float_le. lia. Qed.

(** A sum of doubles with one rounding for each addition. *)
Definition rounded_sum (l : list float) : float := foldl PrimFloat.add 0%float l.

(** A sum of doubles that carries the rounding error of each addition
    along (Knuth's two-sum) and rounds once at the end. *)
Definition two_sum (a b : float) : float * float :=
  let s := (a + b)%float in
  let b' := (s - a)%float in
  (s, ((a - (s - b')) + (b - b'))%float).

Definition compensated_step (acc : float * float) (x : float) : float * float :=
  let '(x1, e1) := two_sum x acc.2 in
  let '(s, x2) := two_sum acc.1 x1 in
  (s, (e1 + x2)%float).

Definition compensated_sum (l : list float) : float :=
  let '(s, e) := foldl compensated_step (0%float, 0%float) l in (s + e)%float.

Global Instance float_numeric : Numeric float :=
  {| nzero := 0%float; nadd := PrimFloat.add; nsum := rounded_sum;
     nsum_nil := eq_refl; nle := float_le;
     nle_dec := float_le_dec; nle_total := float_le_total;
     nle_trans := float_le_trans |}.

(** The same numbers in a store that sums with compensation. *)
Definition float_compensated : Numeric float :=
  {| nzero := 0%float; nadd := PrimFloat.add; nsum := compensated_sum;
     nsum_nil := eq_refl; nle := float_le;
     nle_dec := float_le_dec; nle_total := float_le_total;
     nle_trans := float_le_trans |}.

(** ** Data model *)

(** A [datetime] is a number of microseconds since the epoch, in UTC. *)
Definition datetime : Type := Z.

(** A BSON datetime holds whole milliseconds: the driver cuts the
    microseconds of every datetime it encodes, in a document to insert as
    in a query. *)
Definition bson_datetime (t : datetime) : datetime := t `div` 1000 * 1000.

(** [bson.ObjectId]: an opaque identifier generated by the driver. *)
Definition ObjectId : Type := N.

(** [models.user.UserReference]: a stable id and a display snapshot. *)
Record UserReference : Type := mkUser {
  ur_id : string;
  ur_name : string
}.

Global Instance UserReference_eq_dec : EqDecision UserReference.
Proof. solve_decision. Defined.

(** [models.karma_action.KarmaActionType]: a closed enumeration, stored and
    compared by its string value. *)
Definition KarmaActionType : Type := string.

(** ** Exceptions *)

Inductive Exception : Type :=
  | OperationFailure                  (* the store rejected the request *)
  | DuplicateKeyError
  | IndexError.

Inductive Res (A : Type) : Type :=
  | Ok (a : A)
  | Raise (e : Exception).
Arguments Ok {A} a.
Arguments Raise {A} e.

(** ** Order among equal sort keys *)

(** The store sorts a sequence it has first arranged at will: which of
    two documents with equal sort keys comes first is the store's choice,
    unknown to the repository. *)
Record Arrangement (A : Type) : Type := mkArrangement {
  arrange : list A → list A;
  arrange_perm : ∀ l, arrange l ≡ₚ l
}.
Arguments arrange {A} _ _.
Arguments arrange_perm {A} _ _.

(** The arrangement that leaves every sequence as it is. *)
Definition as_scanned {A} : Arrangement A :=
  mkArrangement A (λ l, l) (λ l, reflexivity l).

(** Sorting by a key in a total order: direction [-1] is descending, any
    other direction ascending. *)
Definition key_order {A K} (le : relation K) (key : A → K) (direction : Z)
  : relation A :=
  λ a b,
    if decide (direction = -1) then le (key b) (key a) else le (key a) (key b).

Global Instance key_order_dec {A K} (le : relation K) `{!RelDecision le}
    (key : A → K) direction a b :
  Decision (key_order le key direction a b).
Proof. unfold key_order. destruct (decide (direction = -1)); apply _. Defined.

Definition sort_by {A K} (le : relation K) `{!RelDecision le} (key : A → K)
    (direction : Z) (ties : Arrangement A) (l : list A) : list A :=
  merge_sort (key_order le key direction) (arrange ties l).

(** ** Python helpers *)

(** Truthiness of an [Optional[datetime]]: only [None] is falsy. *)
Definition truthy_datetime (d : option datetime) : bool :=
  match d with Some _ => true | None => false end.

(** Truthiness of an [Optional[str]]: [None] and the empty string are
    falsy. *)
Definition truthy_str (s : option string) : bool :=
  match s with
  | Some s => bool_decide (s ≠ "")
  | None => false
  end.

(** Truthiness of a list. *)
Definition truthy_list {A} (l : list A) : bool :=
  match l with [] => false | _ :: _ => true end.

(** [datetime.date()], [datetime.min.time()], [datetime.max.time()] and
    [datetime.combine]: a date is a day number, a time of day a number of
    microseconds below [usec_per_day]. *)
Definition usec_per_day : Z := 86400000000.
Definition date_of (d : datetime) : Z := d `div` usec_per_day.
Definition time_of_day (hour minute second microsecond : Z) : Z :=
  ((hour * 60 + minute) * 60 + second) * 1000000 + microsecond.
Definition time_min : Z := time_of_day 0 0 0 0.
Definition time_max : Z := time_of_day 23 59 59 999999.
Definition combine (day time : Z) : datetime := day * usec_per_day + time.

(** ** Queries *)

(** BSON values that occur in the queries of this module. *)
Inductive Value : Type :=
  | VStr (s : string)
  | VDate (t : datetime)
  | VId (o : ObjectId).

Global Instance Value_eq_dec : EqDecision Value.
Proof. solve_decision. Defined.

(** A query dict maps a field path either to a value (equality) or to a
    dict of comparison operators. *)
Inductive Cond : Type :=
  | CEq (v : Value)
  | COps (ops : gmap string Value).

(** Comparison operators only relate values of one type; this module
    compares dates.  Both sides are BSON datetimes: the operand was cut to
    milliseconds when the query was encoded, the stored value when its
    document was. *)
Definition value_le (a b : Value) : bool :=
  match a, b with
  | VDate x, VDate y => bool_decide (bson_datetime x ≤ bson_datetime y)
  | _, _ => false
  end.

Definition op_holds (op : string) (arg : Value) (v : option Value) : bool :=
  match v with
  | None => false
  | Some x =>
      if decide (op = "$gte") then value_le arg x
      else if decide (op = "$lte") then value_le x arg
      else false
  end.

(** An empty operator dict is an equality test against the empty
    sub-document, which no field of a transaction equals. *)
Definition cond_holds (c : Cond) (v : option Value) : bool :=
  match c with
  | CEq x => bool_decide (v = Some x)
  | COps ops =>
      bool_decide (ops ≠ ∅)
      && bool_decide (map_Forall (λ op arg, op_holds op arg v = true) ops)
  end.

(** The date part shared by the four range queries:
    [if start_date or end_date: query["created_at"] = {}; ...]. *)
Definition add_date_range (start_date end_date : option datetime)
    (query : gmap string Cond) : gmap string Cond :=
  if truthy_datetime start_date || truthy_datetime end_date then
    let range : gmap string Value := ∅ in
    let range :=
      match start_date with
      | Some s => <["$gte" := VDate s]> range
      | None => range
      end in
    let range :=
      match end_date with
      | Some e => <["$lte" := VDate e]> range
      | None => range
      end in
    <["created_at" := COps range]> query
  else query.

(** The query of [get_user_karma] and [get_user_actions]. *)
Definition user_query (user_id : string) (start_date end_date : option datetime)
  : gmap string Cond :=
  add_date_range start_date end_date {[ "user.id" := CEq (VStr user_id) ]}.

(** The query of [get_user_karma_by_domain] and
    [get_user_actions_by_domain]. *)
Definition user_domain_query (user_id dom : string)
    (start_date end_date : option datetime) : gmap string Cond :=
  add_date_range start_date end_date
    (<["domain" := CEq (VStr dom)]> {[ "user.id" := CEq (VStr user_id) ]}).

(** The match stage of [get_top_users]:
    [match = {}; if domain: match["domain"] = domain]. *)
Definition top_users_match (dom : option string) : gmap string Cond :=
  let match_ : gmap string Cond := ∅ in
  if truthy_str dom then
    match dom with
    | Some d => <["domain" := CEq (VStr d)]> match_
    | None => match_
    end
  else match_.

(** ** Specification-side vocabulary on dates *)

(** The closed interval described by two optional bounds. *)
Definition in_range (start_date end_date : option datetime) (t : datetime)
  : Prop :=
  (∀ s, start_date = Some s → s ≤ t) ∧ (∀ e, end_date = Some e → t ≤ e).

Global Instance in_range_dec start_date end_date t :
  Decision (in_range start_date end_date t).
Proof.
  unfold in_range.
  assert (Decision (∀ s, start_date = Some s → s ≤ t)) as Hlow.
  { destruct start_date as [s|].
    - destruct (decide (s ≤ t)) as [Hle|Hgt].
      + left. by intros ? [= <-].
      + right. intros H. by apply Hgt, H.
    - left. intros ? [=]. }
  assert (Decision (∀ e, end_date = Some e → t ≤ e)) as Hhigh.
  { destruct end_date as [e|].
    - destruct (decide (t ≤ e)) as [Hle|Hgt].
      + left. by intros ? [= <-].
      + right. intros H. by apply Hgt, H.
    - left. intros ? [=]. }
  apply _.
Defined.

(** The same interval as the store sees it: bounds and instant cut to whole
    milliseconds. *)
Definition in_range_ms (start_date end_date : option datetime) (t : datetime)
  : Prop :=
  in_range (bson_datetime <$> start_date) (bson_datetime <$> end_date)
           (bson_datetime t).

Global Instance in_range_ms_dec start_date end_date t :
  Decision (in_range_ms start_date end_date t).
Proof. unfold in_range_ms. apply _. Defined.

(** ** Documents, the world and the repository *)

Section Model.

Context {P : Type} `{!Numeric P}.

(** [models.karma.KarmaTransactionCreate]: the payload without the
    server-assigned fields. *)
Record KarmaTransactionCreate : Type := mkCreate {
  c_user : UserReference;
  c_points : P;
  c_action_type : KarmaActionType;
  c_domain : string
}.

(** A document of the [karma_transactions] collection, that is, the dict
    [transaction_dict] once stamped.  The key [_id] is absent ([None])
    until the store assigns it. *)
Record Document : Type := mkDoc {
  d_id : option ObjectId;
  d_user : UserReference;
  d_points : P;
  d_action_type : KarmaActionType;
  d_domain : string;
  d_created_at : datetime;
  d_updated_at : datetime
}.

(** [models.karma.KarmaTransaction]: the entity handed back to callers. *)
Record KarmaTransaction : Type := mkTxn {
  id : option ObjectId;
  user : UserReference;
  points : P;
  action_type : KarmaActionType;
  domain : string;
  created_at : datetime;
  updated_at : datetime
}.

(** The constructor [KarmaTransaction] applied to an unpacked document:
    a field-by-field mapping in which the key [_id] becomes [id]. *)
Definition KarmaTransaction_of (t : Document) : KarmaTransaction :=
  {| id := d_id t; user := d_user t; points := d_points t;
     action_type := d_action_type t; domain := d_domain t;
     created_at := d_created_at t; updated_at := d_updated_at t |}.

(** The document as the driver encodes it: its datetimes cut to whole
    milliseconds. *)
Definition bson_document (t : Document) : Document :=
  mkDoc (d_id t) (d_user t) (d_points t) (d_action_type t) (d_domain t)
        (bson_datetime (d_created_at t)) (bson_datetime (d_updated_at t)).

(** An output document of [get_top_users]' [$group] stage. *)
Record UserTotal : Type := mkUserTotal {
  ut_id : string;
  total_points : P;
  ut_user : UserReference
}.

(** An output document of the [$group] stage
    [{"_id": None, "total": {"$sum": "$points"}}]. *)
Record TotalDoc : Type := mkTotal { total : P }.

(** The world: the collection [self.collection] in natural order, the
    store's choice of order among equal sort keys (for documents and for
    leaderboard groups), and the wall clock, given by its successive
    readings. *)
Record World : Type := mkWorld {
  karma_transactions : list Document;
  clock : nat → datetime;
  clock_reads : nat;
  tie_documents : Arrangement Document;
  tie_groups : Arrangement UserTotal
}.

Definition M (A : Type) : Type := World → Res A * World.

Global Instance M_ret : MRet M := λ A a w, (Ok a, w).
Global Instance M_bind : MBind M := λ A B f m w,
  match m w with
  | (Ok a, w') => f a w'
  | (Raise e, w') => (Raise e, w')
  end.

Definition raise {A} (e : Exception) : M A := λ w, (Raise e, w).

Definition result_of {A} (m : M A) (w : World) : Res A := fst (m w).
Definition world_after {A} (m : M A) (w : World) : World := snd (m w).

(** [datetime.now(UTC)]: one reading of the clock. *)
Definition now : M datetime := λ w,
  (Ok (clock w (clock_reads w)),
   mkWorld (karma_transactions w) (clock w) (S (clock_reads w))
           (tie_documents w) (tie_groups w)).

(** [l[i]] for a non-negative index. *)
Definition py_index {A} (l : list A) (i : nat) : M A :=
  match l !! i with
  | Some x => mret x
  | None => raise IndexError
  end.

(** *** The document store *)

(** Field access by the (dotted) paths that queries and sorts address. *)
Definition get_field (path : string) (t : Document) : option Value :=
  if decide (path = "_id") then VId <$> d_id t
  else if decide (path = "user.id") then Some (VStr (ur_id (d_user t)))
  else if decide (path = "user.name") then Some (VStr (ur_name (d_user t)))
  else if decide (path = "action_type") then Some (VStr (d_action_type t))
  else if decide (path = "domain") then Some (VStr (d_domain t))
  else if decide (path = "created_at") then Some (VDate (d_created_at t))
  else if decide (path = "updated_at") then Some (VDate (d_updated_at t))
  else None.

(** A document matches a query when every entry of the dict holds. *)
Definition matches (query : gmap string Cond) (t : Document) : bool :=
  bool_decide (map_Forall (λ k c, cond_holds c (get_field k t) = true) query).

(** The [$match] stage, and the filter of [find]. *)
Definition match_stage (query : gmap string Cond) (docs : list Document)
  : list Document :=
  filter (λ t, matches query t = true) docs.

(** [{"$sum": "$points"}]: the store's sum of the points of the documents,
    in scan order. *)
Definition sum_points (docs : list Document) : P :=
  nsum (d_points <$> docs).

(** The [$group] stage [{"_id": None, "total": {"$sum": "$points"}}]: one
    output document holding the sum, and no output document at all when
    the stage receives no input. *)
Definition group_all_sum_points (docs : list Document) : list TotalDoc :=
  match docs with
  | [] => []
  | _ :: _ => [mkTotal (sum_points docs)]
  end.

(** The [$group] stage of [get_top_users]: key ["$user.id"], accumulators
    [$sum] of ["$points"] and [$first] of ["$user"].  The groups are kept
    in a map by key while the input is scanned in natural order, each with
    the operands its [$sum] has received and the user its [$first] has
    kept; the stage then emits one document per group, with the store's
    sum of the operands, in the map's order. *)
Definition group_step (acc : gmap string (list P * UserReference))
    (t : Document) : gmap string (list P * UserReference) :=
  let k := ur_id (d_user t) in
  match acc !! k with
  | None => <[k := ([d_points t], d_user t)]> acc
  | Some (ps, u) => <[k := (ps ++ [d_points t], u)]> acc
  end.

Definition group_acc (docs : list Document)
  : gmap string (list P * UserReference) :=
  foldl group_step ∅ docs.

Definition group_by_user (docs : list Document) : list UserTotal :=
  (λ kv, mkUserTotal kv.1 (nsum kv.2.1) kv.2.2)
    <$> map_to_list (group_acc docs).

(** The [$sort] stage [{"total_points": -1}]. *)
Definition sort_stage_total_points (direction : Z)
    (ties : Arrangement UserTotal) (l : list UserTotal) : list UserTotal :=
  sort_by nle total_points direction ties l.

(** The [$limit] stage.  The store accepts only a positive limit and
    rejects the whole pipeline otherwise, whatever the collection holds.
    Limits beyond the store's 64-bit integers are not modelled. *)
Definition limit_stage {A} (n : Z) (l : list A) : Res (list A) :=
  if decide (0 < n) then Ok (take (Z.to_nat n) l)
  else Raise OperationFailure.

(** [self.collection.aggregate(pipeline).to_list(length)]: the store runs
    the pipeline over its state; [length=None] keeps every result. *)
Definition aggregate_to_list {A} (pipeline : World → Res (list A))
    (length : option nat) : M (list A) := λ w,
  match pipeline w with
  | Ok out => (Ok (from_option (λ n, take n out) out length), w)
  | Raise e => (Raise e, w)
  end.

(** [self.collection.find(query)] builds a cursor, [.sort(key, direction)]
    sets its order, and [.to_list(length=None)] runs it. *)
Record Cursor : Type := mkCursor {
  cur_query : gmap string Cond;
  cur_sort : option (string * Z)
}.

Definition find (query : gmap string Cond) : Cursor := mkCursor query None.

Definition sort (key : string) (direction : Z) (c : Cursor) : Cursor :=
  mkCursor (cur_query c) (Some (key, direction)).

(** The date valued fields usable as sort keys. *)
Definition sort_key (key : string) (t : Document) : Z :=
  match get_field key t with
  | Some (VDate x) => x
  | _ => 0
  end.

Definition cursor_to_list (c : Cursor) : M (list Document) := λ w,
  let found := match_stage (cur_query c) (karma_transactions w) in
  (Ok match cur_sort c with
      | None => found
      | Some (key, direction) =>
          sort_by Z.le (sort_key key) direction (tie_documents w) found
      end, w).

(** [self.collection.insert_one(doc)]: a document without [_id] receives a
    fresh one; the document is encoded and appended to the collection. *)
Definition new_ObjectId (docs : list Document) : ObjectId :=
  N.succ (foldr N.max 0%N (omap d_id docs)).

Definition insert_one (t : Document) : M ObjectId := λ w,
  let docs := karma_transactions w in
  match d_id t with
  | None =>
      let oid := new_ObjectId docs in
      (Ok oid,
       mkWorld (docs ++ [bson_document
                           (mkDoc (Some oid) (d_user t) (d_points t)
                              (d_action_type t) (d_domain t)
                              (d_created_at t) (d_updated_at t))])
               (clock w) (clock_reads w) (tie_documents w) (tie_groups w))
  | Some oid =>
      if decide (Some oid ∈ (d_id <$> docs)) then (Raise DuplicateKeyError, w)
      else (Ok oid,
            mkWorld (docs ++ [bson_document t]) (clock w) (clock_reads w)
                    (tie_documents w) (tie_groups w))
  end.

(** *** KarmaRepository *)

(** [create_transaction]: stamp the dumped payload with two readings of
    the clock, insert it, and return the entity with the inserted id. *)
Definition create_transaction (transaction : KarmaTransactionCreate)
  : M KarmaTransaction :=
  created ← now;
  updated ← now;
  let transaction_dict :=
    mkDoc None (c_user transaction) (c_points transaction)
          (c_action_type transaction) (c_domain transaction) created updated in
  inserted_id ← insert_one transaction_dict;
  mret (KarmaTransaction_of
          (mkDoc (Some inserted_id) (d_user transaction_dict)
                 (d_points transaction_dict) (d_action_type transaction_dict)
                 (d_domain transaction_dict) (d_created_at transaction_dict)
                 (d_updated_at transaction_dict))).

(** [get_user_karma]: [$match] then [$group] into one total;
    [result[0]["total"] if result else 0.0]. *)
Definition get_user_karma (user_id : string)
    (start_date end_date : option datetime) : M P :=
  let query := user_query user_id start_date end_date in
  result ← aggregate_to_list
              (λ store,
                 Ok (group_all_sum_points
                       (match_stage query (karma_transactions store))))
              (Some 1%nat);
  if truthy_list result then r ← py_index result 0; mret (total r)
  else mret nzero.

(** [get_user_karma_by_domain]: the same with the domain in the query. *)
Definition get_user_karma_by_domain (user_id dom : string)
    (start_date end_date : option datetime) : M P :=
  let query := user_domain_query user_id dom start_date end_date in
  result ← aggregate_to_list
              (λ store,
                 Ok (group_all_sum_points
                       (match_stage query (karma_transactions store))))
              (Some 1%nat);
  if truthy_list result then r ← py_index result 0; mret (total r)
  else mret nzero.

(** [get_user_actions]: [find(query).sort("created_at", -1)], every
    document mapped to an entity. *)
Definition get_user_actions (user_id : string)
    (start_date end_date : option datetime) : M (list KarmaTransaction) :=
  let query := user_query user_id start_date end_date in
  transactions ← cursor_to_list (sort "created_at" (-1) (find query));
  mret (KarmaTransaction_of <$> transactions).

(** [get_user_actions_by_domain]: the same with the domain in the query. *)
Definition get_user_actions_by_domain (user_id dom : string)
    (start_date end_date : option datetime) : M (list KarmaTransaction) :=
  let query := user_domain_query user_id dom start_date end_date in
  transactions ← cursor_to_list (sort "created_at" (-1) (find query));
  mret (KarmaTransaction_of <$> transactions).

(** [get_user_actions_today]: the day of [date] from its first to its last
    microsecond, one user and one action type, in natural order. *)
Definition get_user_actions_today (user_id : string)
    (action : KarmaActionType) (date : datetime) : M (list KarmaTransaction) :=
  let start_of_day := combine (date_of date) time_min in
  let end_of_day := combine (date_of date) time_max in
  let query : gmap string Cond :=
    <["created_at" := COps (<["$lte" := VDate end_of_day]>
                              {[ "$gte" := VDate start_of_day ]})]>
      (<["action_type" := CEq (VStr action)]>
         {[ "user.id" := CEq (VStr user_id) ]}) in
  transactions ← cursor_to_list (find query);
  mret (KarmaTransaction_of <$> transactions).

(** [get_top_users]: the pipeline [$match], [$group], [$sort], [$limit]. *)
Definition get_top_users (limit : Z) (dom : option string)
  : M (list UserTotal) :=
  aggregate_to_list
    (λ store,
       limit_stage limit
         (sort_stage_total_points (-1) (tie_groups store)
            (group_by_user
               (match_stage (top_users_match dom)
                            (karma_transactions store)))))
    None.

(** *** Specification-side vocabulary on documents *)

Definition by_user (user_id : string) (t : Document) : Prop :=
  ur_id (d_user t) = user_id.

Global Instance by_user_dec user_id t : Decision (by_user user_id t).
Proof. unfold by_user. apply _. Defined.

(** The order of [find(query).sort("created_at", -1)] in a world. *)
Definition newest_first (w : World) (docs : list Document) : list Document :=
  sort_by Z.le (sort_key "created_at") (-1) (tie_documents w) docs.

(** The transactions of one user and one action type created within the
    calendar day [day], from 00:00:00.000000 to 23:59:59.999999. *)
Definition on_day (user_id : string) (action : KarmaActionType) (day : Z)
    (t : Document) : Prop :=
  by_user user_id t ∧ d_action_type t = action
  ∧ combine day (time_of_day 0 0 0 0) ≤ d_created_at t
    ≤ combine day (time_of_day 23 59 59 999999).

Global Instance on_day_dec user_id action day t :
  Decision (on_day user_id action day t).
Proof. unfold on_day. apply _. Defined.

(** The leaderboard groups: a user's transactions, their total, and the
    users that occur at all. *)
Definition transactions_of (user_id : string) (docs : list Document)
  : list Document :=
  filter (by_user user_id) docs.

Definition user_total (user_id : string) (docs : list Document) : P :=
  sum_points (transactions_of user_id docs).

Definition user_ids (docs : list Document) : gset string :=
  list_to_set ((λ t, ur_id (d_user t)) <$> docs).

(** The optional domain filter of the leaderboard. *)
Definition in_leaderboard_domain (dom : option string) (t : Document) : Prop :=
  ∀ d, dom = Some d → d ≠ "" → d_domain t = d.

Global Instance in_leaderboard_domain_dec dom t :
  Decision (in_leaderboard_domain dom t).
Proof.
  unfold in_leaderboard_domain. destruct dom as [d|].
  - destruct (decide (d = "")) as [->|Hne].
    + left. by intros ? [= <-].
    + destruct (decide (d_domain t = d)) as [Heq|Hneq].
      * left. by intros ? [= <-].
      * right. intros H. by apply Hneq, H.
  - left. intros ? [=].
Defined.

(** The domains in which a user has at least one transaction. *)
Definition user_domains (user_id : string) (docs : list Document)
  : gset string :=
  list_to_set (d_domain <$> transactions_of user_id docs).

(** The sum of a list of totals, as Python's [sum] adds them up. *)
Definition sum_totals (l : list P) : P := foldl nadd nzero l.

Definition in_domain (dom : string) (t : Document) : Prop := d_domain t = dom.

Global Instance in_domain_dec dom t : Decision (in_domain dom t).
Proof. unfold in_domain. apply _. Defined.

(** The filter of the range queries as the store evaluates it. *)
Definition selected (user_id : string) (start_date end_date : option datetime)
    (t : Document) : Prop :=
  by_user user_id t ∧ in_range_ms start_date end_date (d_created_at t).

Global Instance selected_dec user_id start_date end_date t :
  Decision (selected user_id start_date end_date t).
Proof. unfold selected. apply _. Defined.

Definition selected_in (user_id dom : string)
    (start_date end_date : option datetime) (t : Document) : Prop :=
  (by_user user_id t ∧ d_domain t = dom)
  ∧ in_range_ms start_date end_date (d_created_at t).

Global Instance selected_in_dec user_id dom start_date end_date t :
  Decision (selected_in user_id dom start_date end_date t).
Proof. unfold selected_in. apply _. Defined.

(** The same filters read on an entity. *)
Definition entity_selected (user_id : string)
    (start_date end_date : option datetime) (x : KarmaTransaction) : Prop :=
  ur_id (user x) = user_id ∧ in_range_ms start_date end_date (created_at x).

Global Instance entity_selected_dec user_id start_date end_date x :
  Decision (entity_selected user_id start_date end_date x).
Proof. unfold entity_selected. apply _. Defined.

Definition entity_selected_in (user_id dom : string)
    (start_date end_date : option datetime) (x : KarmaTransaction) : Prop :=
  (ur_id (user x) = user_id ∧ domain x = dom)
  ∧ in_range_ms start_date end_date (created_at x).

Global Instance entity_selected_in_dec user_id dom start_date end_date x :
  Decision (entity_selected_in user_id dom start_date end_date x).
Proof. unfold entity_selected_in. apply _. Defined.

(** The entity as it reads once it has been through the store: its
    datetimes cut to whole milliseconds. *)
Definition as_stored (x : KarmaTransaction) : KarmaTransaction :=
  mkTxn (id x) (user x) (points x) (action_type x) (domain x)
        (bson_datetime (created_at x)) (bson_datetime (updated_at x)).

(** No persisted timestamp is ahead of the next reading of the clock. *)
Definition timestamps_behind_clock (w : World) : Prop :=
  ∀ t, t ∈ karma_transactions w →
       d_created_at t ≤ clock w (clock_reads w)
       ∧ d_updated_at t ≤ clock w (clock_reads w).

End Model.

Arguments KarmaTransactionCreate : clear implicits.
Arguments Document : clear implicits.
Arguments KarmaTransaction : clear implicits.
Arguments UserTotal : clear implicits.
Arguments TotalDoc : clear implicits.
Arguments World : clear implicits.
Arguments M : clear implicits.

(** ** Sample data *)

Definition alice : UserReference := mkUser "A" "alice".
Definition bob : UserReference := mkUser "B" "bob".
Definition ticking_clock : nat → datetime := λ n, Z.of_nat n.

(** Float points; timestamps at 10, 20 and 30 milliseconds. *)
Definition sample_docs : list (Document float) :=
  [ mkDoc (Some 1%N) alice 5%float "LIKE" "x" 10000 10000;
    mkDoc (Some 2%N) alice 3%float "LIKE" "y" 20000 20000;
    mkDoc (Some 3%N) bob 10%float "POST" "x" 30000 30000 ].

Definition sample_world : World float :=
  mkWorld sample_docs ticking_clock 0 as_scanned as_scanned.
Definition empty_world : World float :=
  mkWorld [] ticking_clock 0 as_scanned as_scanned.
Definition sample_create : KarmaTransactionCreate float :=
  mkCreate alice 5%float "LIKE" "x".

(** Five users with pairwise distinct totals 7, 40, 15, 22 and 3. *)
Definition five_users : list (Document float) :=
  [ mkDoc (Some 1%N) (mkUser "u1" "one") 4%float "LIKE" "x" 1000 1000;
    mkDoc (Some 2%N) (mkUser "u2" "two") 40%float "POST" "x" 2000 2000;
    mkDoc (Some 3%N) (mkUser "u3" "three") 15%float "POST" "y" 3000 3000;
    mkDoc (Some 4%N) (mkUser "u4" "four") 20%float "POST" "x" 4000 4000;
    mkDoc (Some 5%N) (mkUser "u5" "five") 3%float "LIKE" "y" 5000 5000;
    mkDoc (Some 6%N) (mkUser "u1" "one") 3%float "LIKE" "y" 6000 6000;
    mkDoc (Some 7%N) (mkUser "u4" "four") 2%float "LIKE" "y" 7000 7000 ].

Definition five_users_world : World float :=
  mkWorld five_users ticking_clock 0 as_scanned as_scanned.

(** The sample collection read when the clock has passed its timestamps. *)
Definition later_clock : nat → datetime := λ n, 40000 + Z.of_nat n.
Definition later_world : World float :=
  mkWorld sample_docs later_clock 0 as_scanned as_scanned.

(** One user whose points do not add up exactly in binary64: [1] and
    [2^53] in one domain, [1] in another between the two. *)
Definition rounding_docs : list (Document float) :=
  [ mkDoc (Some 1%N) alice 1%float "LIKE" "x" 1000 1000;
    mkDoc (Some 2%N) alice 1%float "LIKE" "y" 2000 2000;
    mkDoc (Some 3%N) alice 9007199254740992%float "POST" "x" 3000 3000 ].

Definition rounding_world : World float :=
  mkWorld rounding_docs ticking_clock 0 as_scanned as_scanned.

(** The sample collection with integer points. *)
Definition integer_docs : list (Document Z) :=
  [ mkDoc (Some 1%N) alice 5 "LIKE" "x" 10000 10000;
    mkDoc (Some 2%N) alice 3 "LIKE" "y" 20000 20000;
    mkDoc (Some 3%N) bob 10 "POST" "x" 30000 30000 ].

Definition integer_world : World Z :=
  mkWorld integer_docs ticking_clock 0 as_scanned as_scanned.

(** A transaction stored at 10 milliseconds, queried from half a
    millisecond later. *)
Definition one_doc_world : World float :=
  mkWorld [mkDoc (Some 1%N) alice 5%float "LIKE" "x" 10000 10000]
          ticking_clock 0 as_scanned as_scanned.

(** * Properties *)

(** ** Whole milliseconds *)

Lemma bson_datetime_mono (a b : datetime) :
  a ≤ b → bson_datetime a ≤ bson_datetime b.
Proof.
  intros Hab. unfold bson_datetime.
  pose proof (Z.div_le_mono a b 1000). lia.
Qed.

Lemma bson_datetime_le (a : datetime) : bson_datetime a ≤ a.
Proof.
  unfold bson_datetime. pose proof (Z.div_mod a 1000).
  pose proof (Z.mod_pos_bound a 1000). lia.
Qed.

Lemma in_range_unbounded (t : datetime) : in_range None None t.
Proof. split; intros ? [=]. Qed.

Lemma in_range_ms_unbounded (t : datetime) : in_range_ms None None t.
Proof. apply in_range_unbounded. Qed.

Lemma in_range_in_range_ms (start_date end_date : option datetime)
    (t : datetime) :
  in_range start_date end_date t → in_range_ms start_date end_date t.
Proof.
  intros [Hs He]. split.
  - intros s Heq. destruct start_date as [s0|]; [|done].
    injection Heq as <-. by apply bson_datetime_mono, Hs.
  - intros e Heq. destruct end_date as [e0|]; [|done].
    injection Heq as <-. by apply bson_datetime_mono, He.
Qed.

(** A calendar day begins on a whole millisecond and ends within one, so
    the store's view of the day is the day itself. *)
Lemma day_range_ms (day : Z) (t : datetime) :
  bson_datetime (combine day time_min) ≤ bson_datetime t
  ∧ bson_datetime t ≤ bson_datetime (combine day time_max)
  ↔ combine day (time_of_day 0 0 0 0) ≤ t
    ≤ combine day (time_of_day 23 59 59 999999).
Proof.
  unfold bson_datetime, combine, time_min, time_max, time_of_day,
    usec_per_day.
  Z.to_euclidean_division_equations. lia.
Qed.

Lemma date_of_bson_datetime (t : datetime) :
  date_of (bson_datetime t) = date_of t.
Proof.
  unfold date_of, bson_datetime, usec_per_day.
  Z.to_euclidean_division_equations. lia.
Qed.

(** ** Queries decoded *)

Lemma cond_eq_str (x : string) (v : option Value) :
  cond_holds (CEq (VStr x)) v = true ↔ v = Some (VStr x).
Proof. simpl. by rewrite bool_decide_eq_true. Qed.

Lemma value_le_date (x y : datetime) :
  value_le (VDate x) (VDate y) = true ↔ bson_datetime x ≤ bson_datetime y.
Proof. simpl. by rewrite bool_decide_eq_true. Qed.

Lemma cond_range (start_date end_date : option datetime) (t : datetime) :
  truthy_datetime start_date || truthy_datetime end_date = true →
  let range : gmap string Value := ∅ in
  let range := match start_date with
               | Some s => <["$gte" := VDate s]> range | None => range end in
  let range := match end_date with
               | Some e => <["$lte" := VDate e]> range | None => range end in
  cond_holds (COps range) (Some (VDate t)) = true
  ↔ in_range_ms start_date end_date t.
Proof.
  intros Htruthy. cbn zeta. unfold cond_holds, in_range_ms, in_range.
  rewrite andb_true_iff, !bool_decide_eq_true.
  destruct start_date as [s|], end_date as [e|]; try discriminate Htruthy;
    cbn [fmap option_fmap option_map].
  - rewrite map_Forall_insert by done. rewrite map_Forall_insert by done.
    split.
    + intros (_ & Hle & Hge & _). cbn in Hle, Hge.
      apply value_le_date in Hle, Hge. split; intros ? [= <-]; done.
    + intros [Hs He]. split; [by apply insert_non_empty|].
      split; [|split; [|apply map_Forall_empty]]; cbn; apply value_le_date;
        auto.
  - rewrite map_Forall_insert by done.
    split.
    + intros (_ & Hge & _). cbn in Hge. apply value_le_date in Hge.
      split; [intros ? [= <-]; done | intros ? [=]].
    + intros [Hs _]. split; [by apply insert_non_empty|].
      split; [|apply map_Forall_empty]. cbn. apply value_le_date; auto.
  - rewrite map_Forall_insert by done.
    split.
    + intros (_ & Hle & _). cbn in Hle. apply value_le_date in Hle.
      split; [intros ? [=] | intros ? [= <-]; done].
    + intros [_ He]. split; [by apply insert_non_empty|].
      split; [|apply map_Forall_empty]. cbn. apply value_le_date; auto.
Qed.

Section Properties.

Context {P : Type} `{!Numeric P}.

Implicit Types (w : World P) (t : Document P) (docs : list (Document P)).
Implicit Types (transaction : KarmaTransactionCreate P).

Lemma matches_add_date_range (start_date end_date : option datetime)
    (query : gmap string Cond) t :
  query !! "created_at" = None →
  matches (add_date_range start_date end_date query) t = true ↔
  matches query t = true ∧ in_range_ms start_date end_date (d_created_at t).
Proof.
  intros Hfresh. unfold add_date_range.
  destruct (truthy_datetime start_date || truthy_datetime end_date) eqn:Htruthy.
  - unfold matches. rewrite !bool_decide_eq_true.
    rewrite map_Forall_insert by done.
    change (get_field "created_at" t) with (Some (VDate (d_created_at t))).
    rewrite (cond_range start_date end_date (d_created_at t) Htruthy).
    tauto.
  - destruct start_date, end_date; try discriminate Htruthy.
    split; [intros H; split; [done | apply in_range_ms_unbounded] | tauto].
Qed.

Lemma matches_user_query (user_id : string)
    (start_date end_date : option datetime) t :
  matches (user_query user_id start_date end_date) t = true ↔
  by_user user_id t ∧ in_range_ms start_date end_date (d_created_at t).
Proof.
  unfold user_query. rewrite matches_add_date_range by done.
  unfold matches at 1. rewrite bool_decide_eq_true, map_Forall_singleton.
  rewrite cond_eq_str. unfold by_user.
  change (get_field "user.id" t) with (Some (VStr (ur_id (d_user t)))).
  split; intros [H ?]; split; try done; congruence.
Qed.

Lemma matches_user_domain_query (user_id dom : string)
    (start_date end_date : option datetime) t :
  matches (user_domain_query user_id dom start_date end_date) t = true ↔
  (by_user user_id t ∧ d_domain t = dom)
  ∧ in_range_ms start_date end_date (d_created_at t).
Proof.
  unfold user_domain_query. rewrite matches_add_date_range by done.
  unfold matches at 1. rewrite bool_decide_eq_true.
  rewrite map_Forall_insert by done. rewrite map_Forall_singleton.
  rewrite !cond_eq_str. unfold by_user.
  change (get_field "user.id" t) with (Some (VStr (ur_id (d_user t)))).
  change (get_field "domain" t) with (Some (VStr (d_domain t))).
  split.
  - intros [[Hd Hu] ?]. split; [split|]; congruence.
  - intros [[Hu Hd] ?]. split; [split|]; congruence.
Qed.

(** ** What each method computes *)

Ltac run_method :=
  unfold mbind, M_bind, mret, M_ret, aggregate_to_list, cursor_to_list,
    py_index, raise; cbn [karma_transactions cur_query cur_sort find sort
    from_option fst snd].

Lemma take_1_group_all docs :
  take 1 (group_all_sum_points docs) = group_all_sum_points docs.
Proof. by destruct docs. Qed.

Lemma karma_pipeline_run (query : gmap string Cond) w :
  (result ← aggregate_to_list
              (λ store,
                 Ok (group_all_sum_points
                       (match_stage query (karma_transactions store))))
              (Some 1%nat);
   if truthy_list result then r ← py_index result 0; mret (total r)
   else mret nzero) w
  = (Ok (sum_points (match_stage query (karma_transactions w))), w).
Proof.
  run_method. rewrite take_1_group_all.
  destruct (match_stage query (karma_transactions w)); [|done].
  unfold sum_points. cbn. by rewrite nsum_nil.
Qed.

(** With nothing matched the group stage emits no document and the method
    returns its own literal. *)
Lemma karma_pipeline_run_nil (query : gmap string Cond) w :
  match_stage query (karma_transactions w) = [] →
  (result ← aggregate_to_list
              (λ store,
                 Ok (group_all_sum_points
                       (match_stage query (karma_transactions store))))
              (Some 1%nat);
   if truthy_list result then r ← py_index result 0; mret (total r)
   else mret nzero) w
  = (Ok nzero, w).
Proof. intros Hnil. run_method. by rewrite Hnil. Qed.

Lemma get_user_karma_run user_id start_date end_date w :
  get_user_karma user_id start_date end_date w
  = (Ok (sum_points (match_stage (user_query user_id start_date end_date)
                       (karma_transactions w))), w).
Proof. apply karma_pipeline_run. Qed.

Lemma get_user_karma_by_domain_run user_id dom start_date end_date w :
  get_user_karma_by_domain user_id dom start_date end_date w
  = (Ok (sum_points
           (match_stage (user_domain_query user_id dom start_date end_date)
              (karma_transactions w))), w).
Proof. apply karma_pipeline_run. Qed.

Lemma get_user_actions_run user_id start_date end_date w :
  get_user_actions user_id start_date end_date w
  = (Ok (KarmaTransaction_of <$>
           newest_first w
             (match_stage (user_query user_id start_date end_date)
                (karma_transactions w))), w).
Proof. reflexivity. Qed.

Lemma get_user_actions_by_domain_run user_id dom start_date end_date w :
  get_user_actions_by_domain user_id dom start_date end_date w
  = (Ok (KarmaTransaction_of <$>
           newest_first w
             (match_stage (user_domain_query user_id dom start_date end_date)
                (karma_transactions w))), w).
Proof. reflexivity. Qed.

Lemma match_stage_elem (query : gmap string Cond) docs t :
  t ∈ match_stage query docs ↔ matches query t = true ∧ t ∈ docs.
Proof.
  unfold match_stage.
  apply (list_elem_of_filter (λ x, matches query x = true)).
Qed.

Lemma match_stage_nil (query : gmap string Cond) docs :
  (∀ t, t ∈ docs → matches query t ≠ true) → match_stage query docs = [].
Proof.
  intros Hnone. unfold match_stage. induction docs as [|t docs IH]; [done|].
  rewrite filter_cons. destruct (decide (matches query t = true)) as [Hm|_].
  - exfalso. eapply Hnone; [left | done].
  - apply IH. intros x Hx. apply Hnone. by right.
Qed.

Lemma sort_by_perm {A K} (le : relation K) `{!RelDecision le} (key : A → K)
    (direction : Z) (ties : Arrangement A) (l : list A) :
  sort_by le key direction ties l ≡ₚ l.
Proof.
  unfold sort_by. by rewrite merge_sort_Permutation, arrange_perm.
Qed.

Lemma newest_first_perm w docs : newest_first w docs ≡ₚ docs.
Proof. apply sort_by_perm. Qed.

(** ** The specified properties *)

(** C1.  When no persisted transaction matches the filter (user and date
    range as the store evaluates it, in whole milliseconds, and the domain
    for the by-domain variant), [get_user_karma] and
    [get_user_karma_by_domain] return exactly zero, normally and not by an
    exception. *)
Theorem C1_karma_zero_on_empty_match
    w (user_id dom : string) (start_date end_date : option datetime) :
  ((∀ t, t ∈ karma_transactions w →
      ¬ (by_user user_id t
         ∧ in_range_ms start_date end_date (d_created_at t))) →
   result_of (get_user_karma user_id start_date end_date) w = Ok nzero)
  ∧
  ((∀ t, t ∈ karma_transactions w →
      ¬ ((by_user user_id t ∧ d_domain t = dom)
         ∧ in_range_ms start_date end_date (d_created_at t))) →
   result_of (get_user_karma_by_domain user_id dom start_date end_date) w
   = Ok nzero).
Proof.
  split; intros Hnone; unfold result_of, get_user_karma,
    get_user_karma_by_domain.
  - rewrite karma_pipeline_run_nil; [done|]. apply match_stage_nil.
    intros t Ht Hm. apply (Hnone t Ht). by apply matches_user_query.
  - rewrite karma_pipeline_run_nil; [done|]. apply match_stage_nil.
    intros t Ht Hm. apply (Hnone t Ht). by apply matches_user_domain_query.
Qed.

(** C2.  The date filter shared by [get_user_karma],
    [get_user_karma_by_domain], [get_user_actions] and
    [get_user_actions_by_domain] is closed at both ends: a transaction of
    the user created exactly at [start_date], or exactly at [end_date], is
    matched (the bounds, when both are given, being in order). *)
Theorem C2_date_range_inclusive
    w (user_id dom : string) (start_date end_date : option datetime) t :
  t ∈ karma_transactions w →
  by_user user_id t →
  start_date = Some (d_created_at t) ∨ end_date = Some (d_created_at t) →
  (∀ s e, start_date = Some s → end_date = Some e → s ≤ e) →
  (t ∈ match_stage (user_query user_id start_date end_date)
         (karma_transactions w)
   ∧ result_of (get_user_karma user_id start_date end_date) w
     = Ok (sum_points (match_stage (user_query user_id start_date end_date)
                         (karma_transactions w)))
   ∧ ∃ l, result_of (get_user_actions user_id start_date end_date) w = Ok l
          ∧ KarmaTransaction_of t ∈ l)
  ∧
  (d_domain t = dom →
   t ∈ match_stage (user_domain_query user_id dom start_date end_date)
         (karma_transactions w)
   ∧ result_of (get_user_karma_by_domain user_id dom start_date end_date) w
     = Ok (sum_points
             (match_stage (user_domain_query user_id dom start_date end_date)
                (karma_transactions w)))
   ∧ ∃ l, result_of
            (get_user_actions_by_domain user_id dom start_date end_date) w
          = Ok l
          ∧ KarmaTransaction_of t ∈ l).
Proof.
  intros Hin Huser Hbound Hordered.
  assert (in_range_ms start_date end_date (d_created_at t)) as Hrange.
  { apply in_range_in_range_ms. destruct Hbound as [Hs|He]; split.
    - intros s Hs'. rewrite Hs in Hs'. injection Hs' as <-. lia.
    - intros e He. by apply Hordered.
    - intros s Hs. by apply Hordered.
    - intros e He'. rewrite He in He'. injection He' as <-. lia. }
  split.
  - assert (t ∈ match_stage (user_query user_id start_date end_date)
                  (karma_transactions w)) as Hmatched.
    { apply match_stage_elem. split; [|done]. by apply matches_user_query. }
    split; [done|]. unfold result_of. split.
    + by rewrite get_user_karma_run.
    + rewrite get_user_actions_run. eexists; split; [done|].
      apply list_elem_of_fmap_2. by rewrite newest_first_perm.
  - intros Hdom.
    assert (t ∈ match_stage
                  (user_domain_query user_id dom start_date end_date)
                  (karma_transactions w)) as Hmatched.
    { apply match_stage_elem. split; [|done].
      by apply matches_user_domain_query. }
    split; [done|]. unfold result_of. split.
    + by rewrite get_user_karma_by_domain_run.
    + rewrite get_user_actions_by_domain_run. eexists; split; [done|].
      apply list_elem_of_fmap_2. by rewrite newest_first_perm.
Qed.

Global Instance key_order_total {A K} (le : relation K) `{!Total le}
    (key : A → K) direction :
  Total (key_order le key direction).
Proof.
  intros a b. unfold key_order.
  destruct (decide (direction = -1)); apply total; done.
Qed.

Global Instance key_order_trans {A K} (le : relation K) `{!Transitive le}
    (key : A → K) direction :
  Transitive (key_order le key direction).
Proof.
  intros a b c. unfold key_order.
  destruct (decide (direction = -1)); intros H1 H2; by etrans.
Qed.

Lemma Sorted_adjacent {A} (R : relation A) (l : list A) :
  Sorted R l →
  ∀ (i : nat) a b, l !! i = Some a → l !! S i = Some b → R a b.
Proof.
  induction 1 as [|x l Hsorted IH Hhd]; intros i a b Ha Hb; [done|].
  destruct i as [|i].
  - cbn in Ha, Hb. injection Ha as <-.
    destruct Hhd as [|y l Hxy]; [done|]. cbn in Hb. by injection Hb as <-.
  - cbn in Ha. change ((x :: l) !! S (S i)) with (l !! S i) in Hb. eauto.
Qed.

Lemma newest_first_sorted w docs :
  Sorted (λ a b, created_at b ≤ created_at a)
         (KarmaTransaction_of <$> newest_first w docs).
Proof.
  apply (Sorted_fmap _ (key_order Z.le (sort_key "created_at") (-1))).
  - intros a b Hab. unfold key_order in Hab. by cbn in Hab.
  - apply Sorted_merge_sort, _.
Qed.

(** C3.  The sequences returned by [get_user_actions] and
    [get_user_actions_by_domain] are ordered by [created_at], newest first:
    of two adjacent elements the earlier one's [created_at] is greater than
    or equal to the later one's. *)
Theorem C3_actions_sorted_newest_first
    w (user_id dom : string) (start_date end_date : option datetime) :
  ∃ l l',
    result_of (get_user_actions user_id start_date end_date) w = Ok l
    ∧ result_of (get_user_actions_by_domain user_id dom start_date end_date) w
      = Ok l'
    ∧ (∀ (i : nat) a b, l !! i = Some a → l !! S i = Some b →
                        created_at b ≤ created_at a)
    ∧ (∀ (i : nat) a b, l' !! i = Some a → l' !! S i = Some b →
                        created_at b ≤ created_at a).
Proof.
  unfold result_of.
  rewrite get_user_actions_run, get_user_actions_by_domain_run.
  do 2 eexists. split; [done|]. split; [done|].
  split; intros i a b Ha Hb;
    eapply (Sorted_adjacent _ _ (newest_first_sorted _ _)); eauto.
Qed.

Lemma date_of_combine (day time : Z) :
  0 ≤ time < usec_per_day → date_of (combine day time) = day.
Proof.
  intros Htime. unfold date_of, combine.
  rewrite Z.add_comm, Z.div_add by done. rewrite Z.div_small by done. lia.
Qed.

Lemma matches_today_query (user_id : string) (action : KarmaActionType)
    (day : Z) t :
  matches
    (<["created_at" := COps (<["$lte" := VDate (combine day time_max)]>
                               {[ "$gte" := VDate (combine day time_min) ]})]>
       (<["action_type" := CEq (VStr action)]>
          {[ "user.id" := CEq (VStr user_id) ]})) t = true
  ↔ on_day user_id action day t.
Proof.
  unfold matches. rewrite bool_decide_eq_true.
  rewrite map_Forall_insert by done. rewrite map_Forall_insert by done.
  rewrite map_Forall_singleton, !cond_eq_str.
  change (get_field "user.id" t) with (Some (VStr (ur_id (d_user t)))).
  change (get_field "action_type" t) with (Some (VStr (d_action_type t))).
  change (get_field "created_at" t) with (Some (VDate (d_created_at t))).
  unfold cond_holds. rewrite andb_true_iff, !bool_decide_eq_true.
  rewrite map_Forall_insert by done. rewrite map_Forall_singleton.
  change (op_holds "$lte" (VDate (combine day time_max))
            (Some (VDate (d_created_at t))))
    with (value_le (VDate (d_created_at t)) (VDate (combine day time_max))).
  change (op_holds "$gte" (VDate (combine day time_min))
            (Some (VDate (d_created_at t))))
    with (value_le (VDate (combine day time_min)) (VDate (d_created_at t))).
  rewrite !value_le_date. unfold on_day, by_user.
  pose proof (day_range_ms day (d_created_at t)) as Hday.
  split.
  - intros ((_ & Hle & Hge) & Hact & Huser). split; [congruence|].
    split; [congruence|]. apply Hday. by split.
  - intros (Huser & Hact & Hin). apply Hday in Hin as [Hge Hle].
    split; [split; [by apply insert_non_empty|done]|].
    split; congruence.
Qed.

Lemma get_user_actions_today_run user_id action date w :
  get_user_actions_today user_id action date w
  = (Ok (KarmaTransaction_of <$>
           filter (on_day user_id action (date_of date))
                  (karma_transactions w)), w).
Proof.
  unfold get_user_actions_today. run_method. do 3 f_equal.
  unfold match_stage. apply list_filter_iff. intros t.
  apply matches_today_query.
Qed.

(** C4.  For a reference datetime on day [day], [get_user_actions_today]
    returns exactly the persisted transactions of the user with the given
    action type whose [created_at] lies in the closed interval from
    [day] 00:00:00.000000 to [day] 23:59:59.999999; one created at
    [day] 23:59:59.999999 is returned, and none created at the next day's
    00:00:00.000000 is. *)
Theorem C4_actions_today_exact
    w (user_id : string) (action : KarmaActionType) (day time : Z) :
  0 ≤ time < usec_per_day →
  ∃ l,
    result_of (get_user_actions_today user_id action (combine day time)) w
    = Ok l
    ∧ l = KarmaTransaction_of <$>
            filter (on_day user_id action day) (karma_transactions w)
    ∧ (∀ t, t ∈ karma_transactions w → by_user user_id t →
            d_action_type t = action →
            d_created_at t = combine day (time_of_day 23 59 59 999999) →
            KarmaTransaction_of t ∈ l)
    ∧ (∀ x, x ∈ l →
            created_at x ≠ combine (day + 1) (time_of_day 0 0 0 0)).
Proof.
  intros Htime. unfold result_of.
  rewrite get_user_actions_today_run, date_of_combine by done. cbn [fst].
  eexists. split; [done|]. split; [done|]. split.
  - intros t Hin Huser Hact Hat. apply list_elem_of_fmap_2.
    apply list_elem_of_filter. split; [|done].
    split; [done|]. split; [done|]. rewrite Hat.
    unfold combine, time_of_day. lia.
  - intros x Hx Hnext. apply list_elem_of_fmap in Hx as (t & -> & Ht).
    apply list_elem_of_filter in Ht as [(_ & _ & _ & Hle) _].
    cbn in Hnext. rewrite Hnext in Hle. unfold combine, time_of_day in Hle.
    unfold usec_per_day in Hle. lia.
Qed.

Lemma transactions_of_snoc user_id docs t :
  transactions_of user_id (docs ++ [t])
  = transactions_of user_id docs
    ++ (if decide (by_user user_id t) then [t] else []).
Proof.
  unfold transactions_of. by rewrite filter_app.
Qed.

Lemma group_acc_lookup docs (k : string) :
  group_acc docs !! k
  = match transactions_of k docs with
    | [] => None
    | t :: _ => Some (d_points <$> transactions_of k docs, d_user t)
    end.
Proof.
  unfold group_acc.
  induction docs as [|t docs IH] using rev_ind; [done|].
  rewrite foldl_snoc, transactions_of_snoc. unfold group_step at 1. cbv zeta.
  destruct (decide (by_user k t)) as [Hk|Hk].
  - unfold by_user in Hk. rewrite Hk, IH.
    destruct (transactions_of k docs) as [|t0 l0] eqn:Hl.
    + by rewrite lookup_insert_eq.
    + rewrite lookup_insert_eq. cbn [app]. f_equal. f_equal.
      change (t0 :: l0 ++ [t]) with ((t0 :: l0) ++ [t]).
      by rewrite fmap_app.
  - rewrite app_nil_r.
    assert (ur_id (d_user t) ≠ k) as Hne by (intros Heq; by apply Hk).
    destruct (foldl group_step ∅ docs !! ur_id (d_user t)) as [[s u]|];
      by rewrite lookup_insert_ne.
Qed.

Lemma group_by_user_elem docs (r : UserTotal P) :
  r ∈ group_by_user docs
  ↔ ∃ ps, group_acc docs !! ut_id r = Some (ps, ut_user r)
          ∧ total_points r = nsum ps.
Proof.
  unfold group_by_user. rewrite list_elem_of_fmap. split.
  - intros ([k [ps u]] & -> & Hkv). exists ps.
    by apply elem_of_map_to_list in Hkv.
  - intros (ps & Hlook & Htot). exists (ut_id r, (ps, ut_user r)).
    split; [destruct r; cbn in *; by subst|]. by apply elem_of_map_to_list.
Qed.

Lemma group_by_user_ids docs :
  ut_id <$> group_by_user docs = (map_to_list (group_acc docs)).*1.
Proof.
  unfold group_by_user. rewrite <- list_fmap_compose. by apply list_fmap_ext.
Qed.

Lemma group_by_user_NoDup docs : NoDup (ut_id <$> group_by_user docs).
Proof. rewrite group_by_user_ids. apply NoDup_fst_map_to_list. Qed.

Lemma transactions_of_nonempty docs (k : string) :
  transactions_of k docs ≠ [] ↔ k ∈ user_ids docs.
Proof.
  unfold user_ids. rewrite elem_of_list_to_set, list_elem_of_fmap. split.
  - destruct (transactions_of k docs) as [|t l] eqn:Hl; [done|]. intros _.
    assert (t ∈ transactions_of k docs) as Ht by (rewrite Hl; left).
    apply list_elem_of_filter in Ht as [Hk Hin]. by exists t.
  - intros (t & -> & Hin) Hnil.
    by apply (filter_nil_not_elem_of _ _ t) in Hnil.
Qed.

Lemma group_acc_dom docs : dom (group_acc docs) = user_ids docs.
Proof.
  apply set_eq. intros k. rewrite elem_of_dom, <- transactions_of_nonempty.
  rewrite group_acc_lookup. destruct (transactions_of k docs).
  - split; [by intros [? ?]|done].
  - split; [done|by eexists].
Qed.

Lemma group_by_user_length docs :
  length (group_by_user docs) = size (user_ids docs).
Proof.
  unfold group_by_user. rewrite length_fmap, length_map_to_list.
  by rewrite <- group_acc_dom, size_dom.
Qed.

Lemma group_of_user docs t :
  t ∈ docs →
  ∃ r, r ∈ group_by_user docs ∧ ut_id r = ur_id (d_user t)
       ∧ total_points r = user_total (ur_id (d_user t)) docs.
Proof.
  intros Hin. set (k := ur_id (d_user t)).
  destruct (transactions_of k docs) as [|t0 l0] eqn:Hl.
  - exfalso. by apply (filter_nil_not_elem_of (by_user k) docs t Hl).
  - exists (mkUserTotal k (user_total k docs) (d_user t0)).
    split; [|done]. apply group_by_user_elem. cbn.
    exists (d_points <$> transactions_of k docs).
    split; [by rewrite group_acc_lookup, Hl|done].
Qed.

Lemma matches_top_users (dom : option string) t :
  matches (top_users_match dom) t = true ↔ in_leaderboard_domain dom t.
Proof.
  unfold top_users_match, in_leaderboard_domain, matches.
  rewrite bool_decide_eq_true.
  destruct dom as [d|]; cbn [truthy_str].
  - destruct (decide (d = "")) as [->|Hne].
    + cbn. split; [by intros _ ? [= <-]|]. intros _. apply map_Forall_empty.
    + rewrite bool_decide_true by done.
      rewrite map_Forall_insert by done. rewrite cond_eq_str.
      change (get_field "domain" t) with (Some (VStr (d_domain t))). split.
      * intros [Hd _] ? [= <-] _. congruence.
      * intros Hd. split; [|apply map_Forall_empty]. f_equal. f_equal.
        by apply Hd.
  - split; [intros _ ? [=]|]. intros _. apply map_Forall_empty.
Qed.

Lemma get_top_users_run (limit : Z) (dom : option string) w :
  0 < limit →
  get_top_users limit dom w
  = (Ok (take (Z.to_nat limit)
           (sort_stage_total_points (-1) (tie_groups w)
              (group_by_user
                 (filter (in_leaderboard_domain dom)
                         (karma_transactions w))))), w).
Proof.
  intros Hpos. unfold get_top_users, aggregate_to_list, limit_stage.
  rewrite decide_True by done. cbn [from_option]. do 5 f_equal.
  unfold match_stage. apply list_filter_iff. intros t.
  apply matches_top_users.
Qed.

Lemma sort_stage_perm (direction : Z) (ties : Arrangement (UserTotal P))
    (l : list (UserTotal P)) :
  sort_stage_total_points direction ties l ≡ₚ l.
Proof. apply sort_by_perm. Qed.

Lemma key_order_desc {A K} (le : relation K) (key : A → K) (a b : A) :
  key_order le key (-1) a b ↔ le (key b) (key a).
Proof. unfold key_order. by rewrite decide_True. Qed.

Lemma take_of_sorted_dominates (n : nat) (ties : Arrangement (UserTotal P))
    (l : list (UserTotal P)) r g :
  r ∈ take n (sort_stage_total_points (-1) ties l) →
  g ∈ sort_stage_total_points (-1) ties l →
  g ∉ take n (sort_stage_total_points (-1) ties l) →
  nle (total_points g) (total_points r).
Proof.
  set (sorted := sort_stage_total_points (-1) ties l). intros Hr Hg Hout.
  assert (StronglySorted (key_order nle total_points (-1)) sorted) as Hsorted.
  { apply StronglySorted_merge_sort; apply _. }
  rewrite <- (take_drop n sorted) in Hsorted, Hg.
  apply elem_of_app in Hg as [Hg|Hg]; [done|].
  apply (key_order_desc nle total_points).
  by apply (StronglySorted_app_1_elem_of _ _ _ r g Hsorted).
Qed.

(** C5.  For a positive [limit] and any optional domain, [get_top_users]
    returns one group per user of the matching transactions, each with the
    sum of that user's points and the snapshot of the user's first
    transaction; the groups are in descending order of [total_points] and
    at most [limit] of them are returned, the missing ones having totals
    no higher than any returned one.  When no two totals rank equal the
    order is strict and the returned groups are exactly the highest. *)
Theorem C5_top_users_sorted_and_truncated
    w (limit : Z) (dom : option string) :
  0 < limit →
  let matching :=
    filter (in_leaderboard_domain dom) (karma_transactions w) in
  ∃ res,
    result_of (get_top_users limit dom) w = Ok res
    ∧ length res = Nat.min (Z.to_nat limit) (size (user_ids matching))
    ∧ NoDup (ut_id <$> res)
    ∧ (∀ r, r ∈ res →
         total_points r = user_total (ut_id r) matching
         ∧ d_user <$> head (transactions_of (ut_id r) matching)
           = Some (ut_user r))
    ∧ (∀ (i : nat) a b, res !! i = Some a → res !! S i = Some b →
         nle (total_points b) (total_points a))
    ∧ (∀ t r, t ∈ matching → ur_id (d_user t) ∉ (ut_id <$> res) → r ∈ res →
         nle (user_total (ur_id (d_user t)) matching) (total_points r))
    ∧ ((∀ k k', k ∈ user_ids matching → k' ∈ user_ids matching → k ≠ k' →
          ¬ same_rank (user_total k matching) (user_total k' matching)) →
       (∀ (i : nat) a b, res !! i = Some a → res !! S i = Some b →
          nlt (total_points b) (total_points a))
       ∧ (∀ t r, t ∈ matching → ur_id (d_user t) ∉ (ut_id <$> res) →
          r ∈ res →
          nlt (user_total (ur_id (d_user t)) matching) (total_points r))).
Proof.
  intros Hpos matching. unfold result_of.
  rewrite get_top_users_run by done. cbn [fst]. fold matching.
  set (groups := group_by_user matching).
  set (sorted := sort_stage_total_points (-1) (tie_groups w) groups).
  set (n := Z.to_nat limit).
  assert (∀ r, r ∈ take n sorted → r ∈ groups) as Hgroups.
  { intros r Hr. rewrite <- (sort_stage_perm (-1) (tie_groups w) groups).
    exact (subseteq_take n sorted r Hr). }
  assert (∀ r, r ∈ take n sorted →
            total_points r = user_total (ut_id r) matching
            ∧ d_user <$> head (transactions_of (ut_id r) matching)
              = Some (ut_user r)) as Hgroup.
  { intros r Hr. apply Hgroups, group_by_user_elem in Hr as (ps & Hr & Htot).
    rewrite group_acc_lookup in Hr. unfold user_total, sum_points.
    destruct (transactions_of (ut_id r) matching); [done|].
    injection Hr as <- Husr. split; [done|]. cbn. by f_equal. }
  assert (NoDup (ut_id <$> take n sorted)) as Hnodup.
  { rewrite fmap_take.
    apply (sublist_NoDup _ (ut_id <$> sorted)); [|apply sublist_take].
    unfold sorted. rewrite (sort_stage_perm (-1) (tie_groups w) groups).
    apply group_by_user_NoDup. }
  assert (∀ (i : nat) a b, take n sorted !! i = Some a →
            take n sorted !! S i = Some b →
            nle (total_points b) (total_points a)) as Hadjacent.
  { intros i a b Ha Hb.
    apply lookup_take_Some in Ha as [Ha _], Hb as [Hb _].
    apply (key_order_desc nle total_points).
    eapply (Sorted_adjacent (key_order nle total_points (-1)) sorted); eauto.
    apply Sorted_merge_sort, _. }
  assert (∀ t r, t ∈ matching →
            ur_id (d_user t) ∉ (ut_id <$> take n sorted) →
            r ∈ take n sorted →
            nle (user_total (ur_id (d_user t)) matching) (total_points r))
    as Htop.
  { intros t r Ht Hout Hr.
    destruct (group_of_user matching t Ht) as (g & Hg & Hid & Htot).
    rewrite <- Htot.
    apply (take_of_sorted_dominates n (tie_groups w) groups); [done| |].
    - by rewrite (sort_stage_perm (-1) (tie_groups w) groups).
    - intros Hgin. apply Hout. rewrite <- Hid. by apply list_elem_of_fmap_2. }
  assert (∀ r, r ∈ take n sorted → ut_id r ∈ user_ids matching) as Hids.
  { intros r Hr. apply transactions_of_nonempty.
    destruct (Hgroup r Hr) as [_ Hhead].
    by destruct (transactions_of (ut_id r) matching). }
  eexists. split; [done|]. split.
  { rewrite length_take. f_equal. unfold sorted, groups.
    by rewrite (sort_stage_perm (-1)), group_by_user_length. }
  split; [done|]. split; [done|]. split; [done|]. split; [done|].
  intros Hdistinct. split.
  - intros i a b Ha Hb.
    assert (a ∈ take n sorted) as Hain by (by eapply list_elem_of_lookup_2).
    assert (b ∈ take n sorted) as Hbin by (by eapply list_elem_of_lookup_2).
    assert (ut_id a ≠ ut_id b) as Hne.
    { intros Heq.
      assert (i = S i); [|lia].
      eapply (NoDup_lookup _ _ _ (ut_id a) Hnodup).
      - by rewrite list_lookup_fmap, Ha.
      - by rewrite list_lookup_fmap, Hb, Heq. }
    pose proof (Hadjacent i a b Ha Hb) as Hle.
    pose proof (Hdistinct _ _ (Hids a Hain) (Hids b Hbin) Hne) as Hneq.
    destruct (Hgroup a Hain) as [Hta _]. destruct (Hgroup b Hbin) as [Htb _].
    intros Hback. apply Hneq. rewrite <- Hta, <- Htb. by split.
  - intros t r Ht Hout Hr.
    pose proof (Htop t r Ht Hout Hr) as Hle.
    destruct (Hgroup r Hr) as [Htr _].
    assert (ur_id (d_user t) ≠ ut_id r) as Hne.
    { intros Heq. apply Hout. rewrite Heq. by apply list_elem_of_fmap_2. }
    assert (ur_id (d_user t) ∈ user_ids matching) as Htin.
    { unfold user_ids. apply elem_of_list_to_set.
      by apply (list_elem_of_fmap_2 (λ x, ur_id (d_user x))). }
    pose proof (Hdistinct _ _ Htin (Hids r Hr) Hne) as Hneq.
    intros Hback. apply Hneq. rewrite <- Htr. by split.
Qed.

Lemma match_user_unbounded (user_id : string) docs :
  match_stage (user_query user_id None None) docs
  = transactions_of user_id docs.
Proof.
  unfold match_stage, transactions_of. apply list_filter_iff. intros t.
  rewrite matches_user_query.
  pose proof (in_range_ms_unbounded (d_created_at t)). tauto.
Qed.

Lemma match_user_domain_unbounded (user_id dom : string) docs :
  match_stage (user_domain_query user_id dom None None) docs
  = filter (in_domain dom) (transactions_of user_id docs).
Proof.
  unfold match_stage, transactions_of. rewrite list_filter_filter.
  apply list_filter_iff. intros t. rewrite matches_user_domain_query.
  pose proof (in_range_ms_unbounded (d_created_at t)). unfold in_domain.
  tauto.
Qed.


Section Exact.

Context `{!ExactArithmetic P}.



Lemma sum_points_totals docs : sum_points docs = sum_totals (d_points <$> docs).
Proof. unfold sum_points, sum_totals. apply nsum_exact. Qed.


Lemma sum_points_snoc docs t :
  sum_points (docs ++ [t]) = nadd (sum_points docs) (d_points t).
Proof.
  rewrite !sum_points_totals, fmap_app. unfold sum_totals.
  by rewrite foldl_app.
Qed.






End Exact.

Lemma new_ObjectId_fresh docs : Some (new_ObjectId docs) ∉ (d_id <$> docs).
Proof.
  assert (∀ o, Some o ∈ (d_id <$> docs) →
            (o ≤ foldr N.max 0 (omap d_id docs))%N) as Hmax.
  { induction docs as [|t docs IH]; intros o Ho.
    - by apply not_elem_of_nil in Ho.
    - cbn in Ho. apply elem_of_cons in Ho as [Ho|Ho].
      + cbn. rewrite <- Ho. cbn. lia.
      + specialize (IH o Ho). cbn. destruct (d_id t); cbn; lia. }
  intros Hin. apply Hmax in Hin. unfold new_ObjectId in Hin. lia.
Qed.

Lemma create_transaction_run transaction w :
  let created := clock w (clock_reads w) in
  let updated := clock w (S (clock_reads w)) in
  let oid := new_ObjectId (karma_transactions w) in
  let returned :=
    mkDoc (Some oid) (c_user transaction) (c_points transaction)
          (c_action_type transaction) (c_domain transaction)
          created updated in
  create_transaction transaction w
  = (Ok (KarmaTransaction_of returned),
     mkWorld (karma_transactions w ++ [bson_document returned]) (clock w)
             (S (S (clock_reads w))) (tie_documents w) (tie_groups w)).
Proof. reflexivity. Qed.

(** C7.  [create_transaction] returns an entity with a non-null
    [id] that no persisted transaction carried before; its [created_at] and
    [updated_at] are two successive readings of the clock, so on a clock
    that never runs backwards [created_at] is at least the time read just
    before the call and [updated_at] is at least [created_at]. *)
Theorem C7_create_transaction_entity w transaction :
  (∀ n, clock w n ≤ clock w (S n)) →
  ∃ before w1 entity w2 oid,
    now w = (Ok before, w1)
    ∧ create_transaction transaction w1 = (Ok entity, w2)
    ∧ id entity = Some oid
    ∧ (Some oid ∉ (d_id <$> karma_transactions w))
    ∧ before ≤ created_at entity ≤ updated_at entity
    ∧ user entity = c_user transaction
    ∧ points entity = c_points transaction
    ∧ action_type entity = c_action_type transaction
    ∧ domain entity = c_domain transaction.
Proof.
  intros Hmono. do 5 eexists. split; [reflexivity|].
  split; [apply create_transaction_run|]. cbn.
  split; [done|]. split; [apply new_ObjectId_fresh|].
  split; [|done]. split; apply Hmono.
Qed.

(** C8.  For a non-positive [limit] the pipeline of
    [get_top_users] is rejected by the store's [$limit] stage: the call
    raises the store's error, returns no sequence and leaves the store
    as it was. *)
Theorem C8_top_users_nonpositive_limit w (limit : Z) (dom : option string) :
  limit ≤ 0 →
  get_top_users limit dom w = (Raise OperationFailure, w).
Proof.
  intros Hneg. unfold get_top_users, aggregate_to_list, limit_stage.
  rewrite decide_False by lia. done.
Qed.

(** C9.  The six read methods leave the world, and so the persisted
    transactions, unchanged; [create_transaction] appends exactly one
    document after the existing ones, which stay as they were. *)
Theorem C9_reads_frame_create_appends
    w (user_id dom : string) (start_date end_date : option datetime)
    (action : KarmaActionType) (date : datetime) (limit : Z)
    (top_domain : option string) transaction :
  world_after (get_user_karma user_id start_date end_date) w = w
  ∧ world_after (get_user_karma_by_domain user_id dom start_date end_date) w
    = w
  ∧ world_after (get_user_actions user_id start_date end_date) w = w
  ∧ world_after (get_user_actions_by_domain user_id dom start_date end_date) w
    = w
  ∧ world_after (get_user_actions_today user_id action date) w = w
  ∧ world_after (get_top_users limit top_domain) w = w
  ∧ ∃ stored,
      karma_transactions (world_after (create_transaction transaction) w)
      = karma_transactions w ++ [stored].
Proof.
  unfold world_after.
  rewrite get_user_karma_run, get_user_karma_by_domain_run,
    get_user_actions_run, get_user_actions_by_domain_run,
    get_user_actions_today_run, create_transaction_run.
  repeat (split; [done|]). split.
  - unfold get_top_users, aggregate_to_list.
    by destruct (limit_stage _ _).
  - by eexists.
Qed.

(** C10.  [get_top_users] with the empty string as domain behaves as with
    no domain: the match stage is the empty query, which every
    transaction passes. *)
Theorem C10_empty_domain_is_no_domain w (limit : Z) :
  get_top_users limit (Some "") w = get_top_users limit None w
  ∧ top_users_match (Some "") = ∅
  ∧ match_stage (top_users_match (Some "")) (karma_transactions w)
    = karma_transactions w.
Proof.
  split; [reflexivity|]. split; [reflexivity|].
  unfold match_stage. induction (karma_transactions w) as [|t l IH]; [done|].
  rewrite filter_cons, decide_True; [by rewrite IH|].
  apply matches_top_users. by intros d [= <-] Hne.
Qed.

(** * Further properties of the repository *)

(** ** Writes seen by reads *)

Lemma bson_datetime_idem (t : datetime) :
  bson_datetime (bson_datetime t) = bson_datetime t.
Proof. unfold bson_datetime. by rewrite Z.div_mul. Qed.

Lemma in_range_ms_bson (start_date end_date : option datetime) (t : datetime) :
  in_range_ms start_date end_date (bson_datetime t)
  ↔ in_range_ms start_date end_date t.
Proof. unfold in_range_ms. by rewrite bson_datetime_idem. Qed.

Lemma match_user_query_selected user_id start_date end_date docs :
  match_stage (user_query user_id start_date end_date) docs
  = filter (selected user_id start_date end_date) docs.
Proof.
  unfold match_stage. apply list_filter_iff. intros t.
  apply matches_user_query.
Qed.

Lemma match_user_domain_query_selected user_id dom start_date end_date docs :
  match_stage (user_domain_query user_id dom start_date end_date) docs
  = filter (selected_in user_id dom start_date end_date) docs.
Proof.
  unfold match_stage. apply list_filter_iff. intros t.
  apply matches_user_domain_query.
Qed.

Lemma filter_snoc_decide {A} (Q : A → Prop) `{∀ y, Decision (Q y)}
    (l : list A) (y : A) :
  filter Q (l ++ [y]) = filter Q l ++ (if decide (Q y) then [y] else []).
Proof.
  by rewrite filter_app.
Qed.

Lemma entity_of_bson_document t :
  KarmaTransaction_of (bson_document t) = as_stored (KarmaTransaction_of t).
Proof. reflexivity. Qed.

(** X1.  A transaction created by [create_transaction] joins, as the last
    operand of the store's sum, [get_user_karma] of exactly those queries
    whose user and date range (in whole milliseconds) select it, and
    leaves every other total as it was; in arithmetic without rounding the
    new total is the old one plus the transaction's points. *)
Theorem create_transaction_adds_to_karma
    w transaction (user_id : string) (start_date end_date : option datetime) :
  ∃ entity w' before after,
    create_transaction transaction w = (Ok entity, w')
    ∧ result_of (get_user_karma user_id start_date end_date) w = Ok before
    ∧ result_of (get_user_karma user_id start_date end_date) w' = Ok after
    ∧ after
      = (if decide (entity_selected user_id start_date end_date entity)
         then nsum ((d_points <$>
                       filter (selected user_id start_date end_date)
                         (karma_transactions w))
                    ++ [c_points transaction])
         else before)
    ∧ (ExactArithmetic P →
       after
       = if decide (entity_selected user_id start_date end_date entity)
         then nadd before (c_points transaction) else before).
Proof.
  do 4 eexists. split; [apply create_transaction_run|].
  unfold result_of. rewrite !get_user_karma_run. cbn [fst karma_transactions].
  split; [done|]. split; [done|].
  rewrite !match_user_query_selected, filter_snoc_decide.
  unfold selected, entity_selected, by_user. cbn.
  pose proof (in_range_ms_bson start_date end_date (clock w (clock_reads w))).
  split; [|intros Hexact]; repeat case_decide; try tauto.
  - unfold sum_points. by rewrite fmap_app.
  - by rewrite app_nil_r.
  - by rewrite sum_points_snoc.
  - by rewrite app_nil_r.
Qed.

(** X2.  The same for [get_user_karma_by_domain]: only the totals of the
    transaction's own user and domain, over ranges containing the
    millisecond of its creation, receive its points as the last operand of
    the store's sum; in arithmetic without rounding they grow by these
    points. *)
Theorem create_transaction_adds_to_karma_by_domain
    w transaction (user_id dom : string)
    (start_date end_date : option datetime) :
  ∃ entity w' before after,
    create_transaction transaction w = (Ok entity, w')
    ∧ result_of (get_user_karma_by_domain user_id dom start_date end_date) w
      = Ok before
    ∧ result_of (get_user_karma_by_domain user_id dom start_date end_date) w'
      = Ok after
    ∧ after
      = (if decide (entity_selected_in user_id dom start_date end_date entity)
         then nsum ((d_points <$>
                       filter (selected_in user_id dom start_date end_date)
                         (karma_transactions w))
                    ++ [c_points transaction])
         else before)
    ∧ (ExactArithmetic P →
       after
       = if decide (entity_selected_in user_id dom start_date end_date entity)
         then nadd before (c_points transaction) else before).
Proof.
  do 4 eexists. split; [apply create_transaction_run|].
  unfold result_of. rewrite !get_user_karma_by_domain_run.
  cbn [fst karma_transactions]. split; [done|]. split; [done|].
  rewrite !match_user_domain_query_selected, filter_snoc_decide.
  unfold selected_in, entity_selected_in, by_user. cbn.
  pose proof (in_range_ms_bson start_date end_date (clock w (clock_reads w))).
  split; [|intros Hexact]; repeat case_decide; try tauto.
  - unfold sum_points. by rewrite fmap_app.
  - by rewrite app_nil_r.
  - by rewrite sum_points_snoc.
  - by rewrite app_nil_r.
Qed.

(** X3.  After [create_transaction], [get_user_actions] and
    [get_user_actions_by_domain] return the created entity as the store
    holds it (its timestamps cut to whole milliseconds) together with
    what they returned before, when their filter selects it, and what
    they returned before otherwise. *)
Theorem create_transaction_seen_by_actions
    w transaction (user_id dom : string)
    (start_date end_date : option datetime) :
  ∃ entity w' old new old_in new_in,
    create_transaction transaction w = (Ok entity, w')
    ∧ result_of (get_user_actions user_id start_date end_date) w = Ok old
    ∧ result_of (get_user_actions user_id start_date end_date) w' = Ok new
    ∧ result_of
        (get_user_actions_by_domain user_id dom start_date end_date) w
      = Ok old_in
    ∧ result_of
        (get_user_actions_by_domain user_id dom start_date end_date) w'
      = Ok new_in
    ∧ (entity_selected user_id start_date end_date entity →
       new ≡ₚ as_stored entity :: old)
    ∧ (¬ entity_selected user_id start_date end_date entity → new = old)
    ∧ (entity_selected_in user_id dom start_date end_date entity →
       new_in ≡ₚ as_stored entity :: old_in)
    ∧ (¬ entity_selected_in user_id dom start_date end_date entity →
       new_in = old_in).
Proof.
  do 6 eexists. split; [apply create_transaction_run|].
  unfold result_of.
  rewrite !get_user_actions_run, !get_user_actions_by_domain_run.
  cbn [fst karma_transactions].
  rewrite !match_user_query_selected, !match_user_domain_query_selected,
    !filter_snoc_decide.
  do 4 (split; [done|]).
  unfold selected, selected_in, entity_selected, entity_selected_in, by_user.
  cbn [KarmaTransaction_of bson_document user created_at domain d_user
       d_created_at d_domain].
  pose proof (in_range_ms_bson start_date end_date (clock w (clock_reads w)))
    as Hms.
  repeat split; intros Hsel.
  - rewrite decide_True by tauto. rewrite !newest_first_perm.
    rewrite fmap_app. cbn [fmap list_fmap].
    by rewrite <- Permutation_cons_append.
  - rewrite decide_False by tauto. by rewrite app_nil_r.
  - rewrite decide_True by tauto. rewrite !newest_first_perm.
    rewrite fmap_app. cbn [fmap list_fmap].
    by rewrite <- Permutation_cons_append.
  - rewrite decide_False by tauto. by rewrite app_nil_r.
Qed.

(** X4.  [get_user_actions] and [get_user_actions_by_domain] return the
    transactions their query selects, each once: the result is a
    rearrangement of the documents of the collection that the store
    matches (user, domain, and the date range in whole milliseconds),
    mapped to entities. *)
Theorem actions_are_the_selected_transactions
    w (user_id dom : string) (start_date end_date : option datetime) :
  ∃ l l',
    result_of (get_user_actions user_id start_date end_date) w = Ok l
    ∧ result_of (get_user_actions_by_domain user_id dom start_date end_date) w
      = Ok l'
    ∧ l ≡ₚ KarmaTransaction_of <$>
             filter (selected user_id start_date end_date)
                    (karma_transactions w)
    ∧ l' ≡ₚ KarmaTransaction_of <$>
              filter (selected_in user_id dom start_date end_date)
                     (karma_transactions w).
Proof.
  unfold result_of.
  rewrite get_user_actions_run, get_user_actions_by_domain_run. cbn [fst].
  rewrite match_user_query_selected, match_user_domain_query_selected.
  do 2 eexists. split; [done|]. split; [done|].
  by rewrite !newest_first_perm.
Qed.

(** X6.  [get_user_actions_by_domain] returns exactly those entities of
    [get_user_actions], for the same user and range, whose domain is the
    requested one. *)
Theorem actions_by_domain_refines_actions
    w (user_id dom : string) (start_date end_date : option datetime) :
  ∃ l l',
    result_of (get_user_actions user_id start_date end_date) w = Ok l
    ∧ result_of (get_user_actions_by_domain user_id dom start_date end_date) w
      = Ok l'
    ∧ l' ≡ₚ filter (λ x, domain x = dom) l.
Proof.
  unfold result_of.
  rewrite get_user_actions_run, get_user_actions_by_domain_run. cbn [fst].
  rewrite match_user_query_selected, match_user_domain_query_selected.
  do 2 eexists. split; [done|]. split; [done|].
  rewrite !newest_first_perm.
  induction (karma_transactions w) as [|t docs IH]; [done|].
  rewrite !filter_cons. unfold selected_in at 1, selected at 1.
  destruct (decide (by_user user_id t
                    ∧ in_range_ms start_date end_date (d_created_at t)))
    as [Hsel|Hsel].
  - rewrite fmap_cons, filter_cons.
    change (domain (KarmaTransaction_of t)) with (d_domain t).
    destruct (decide (d_domain t = dom)) as [Hdom|Hdom].
    + case_decide as Hin; [|exfalso; apply Hin; tauto].
      rewrite fmap_cons. by f_equiv.
    + case_decide as Hin; [exfalso; tauto|done].
  - case_decide as Hin; [exfalso; tauto|done].
Qed.

(** ** The leaderboard *)

Lemma top_users_entry w (limit : Z) (dom : option string) (r : UserTotal P) :
  0 < limit →
  r ∈ take (Z.to_nat limit)
        (sort_stage_total_points (-1) (tie_groups w)
           (group_by_user
              (filter (in_leaderboard_domain dom) (karma_transactions w)))) →
  total_points r
  = user_total (ut_id r)
      (filter (in_leaderboard_domain dom) (karma_transactions w)).
Proof.
  intros Hpos Hr. apply subseteq_take in Hr.
  rewrite (sort_stage_perm (-1)) in Hr.
  apply group_by_user_elem in Hr as (ps & Hr & Htot).
  rewrite group_acc_lookup in Hr. unfold user_total, sum_points.
  destruct (transactions_of (ut_id r) _); [done|]. by injection Hr as <- _.
Qed.

Lemma filter_no_domain docs :
  filter (in_leaderboard_domain None) docs = docs.
Proof.
  induction docs as [|t docs IH]; [done|].
  rewrite filter_cons, decide_True; [by rewrite IH|]. intros ? [=].
Qed.

Lemma transactions_of_in_leaderboard_domain (k d : string) docs :
  d ≠ "" →
  transactions_of k (filter (in_leaderboard_domain (Some d)) docs)
  = filter (in_domain d) (transactions_of k docs).
Proof.
  intros Hne. unfold transactions_of. rewrite !list_filter_filter.
  apply list_filter_iff. intros t. unfold in_leaderboard_domain, in_domain.
  split.
  - intros [Hk Hd]. split; [|done]. by apply Hd.
  - intros [Hd Hk]. split; [done|]. by intros ? [= <-] _.
Qed.

(** X7.  Every entry of the leaderboard carries the karma of its user: with
    no domain its [total_points] is what [get_user_karma] returns for that
    user without date bounds, and with a (non-empty) domain what
    [get_user_karma_by_domain] returns for that user and domain. *)
Theorem top_users_totals_are_karma w (limit : Z) (dom : string) :
  0 < limit →
  ∃ res res_in,
    result_of (get_top_users limit None) w = Ok res
    ∧ result_of (get_top_users limit (Some dom)) w = Ok res_in
    ∧ (∀ r, r ∈ res →
         result_of (get_user_karma (ut_id r) None None) w
         = Ok (total_points r))
    ∧ (dom ≠ "" →
       ∀ r, r ∈ res_in →
         result_of (get_user_karma_by_domain (ut_id r) dom None None) w
         = Ok (total_points r)).
Proof.
  intros Hpos. unfold result_of.
  rewrite !get_top_users_run by done. cbn [fst].
  do 2 eexists. split; [done|]. split; [done|]. split.
  - intros r Hr. rewrite get_user_karma_run, match_user_unbounded. cbn [fst].
    f_equal. rewrite (top_users_entry w limit None r Hpos Hr).
    by rewrite filter_no_domain.
  - intros Hne r Hr.
    rewrite get_user_karma_by_domain_run, match_user_domain_unbounded.
    cbn [fst]. f_equal. rewrite (top_users_entry w limit (Some dom) r Hpos Hr).
    unfold user_total. by rewrite transactions_of_in_leaderboard_domain.
Qed.

(** X9.  When [limit] is at least the number of users with a matching
    transaction, the leaderboard has one entry for every one of them. *)
Theorem top_users_complete_when_limit_suffices
    w (limit : Z) (dom : option string) :
  0 < limit →
  (size (user_ids (filter (in_leaderboard_domain dom)
                          (karma_transactions w))) ≤ Z.to_nat limit)%nat →
  ∃ res,
    result_of (get_top_users limit dom) w = Ok res
    ∧ (∀ t, t ∈ karma_transactions w → in_leaderboard_domain dom t →
            ur_id (d_user t) ∈ (ut_id <$> res))
    ∧ length res
      = size (user_ids (filter (in_leaderboard_domain dom)
                               (karma_transactions w))).
Proof.
  intros Hpos Hsize. unfold result_of.
  rewrite get_top_users_run by done. cbn [fst].
  set (matching := filter (in_leaderboard_domain dom) (karma_transactions w))
    in *.
  eexists. split; [done|].
  rewrite take_ge.
  2:{ rewrite (sort_stage_perm (-1)), group_by_user_length. lia. }
  split.
  - intros t Ht Hdom.
    assert (t ∈ matching) as Hm by (by apply list_elem_of_filter).
    destruct (group_of_user matching t Hm) as (g & Hg & Hid & _).
    rewrite <- Hid. apply list_elem_of_fmap_2.
    by rewrite (sort_stage_perm (-1)).
  - by rewrite (sort_stage_perm (-1)), group_by_user_length.
Qed.

(** X10.  A leaderboard over no matching transaction (an empty collection,
    or a domain nobody has a transaction in) is the empty list, not an
    error. *)
Theorem top_users_empty_when_nothing_matches
    w (limit : Z) (dom : option string) :
  0 < limit →
  (∀ t, t ∈ karma_transactions w → ¬ in_leaderboard_domain dom t) →
  result_of (get_top_users limit dom) w = Ok [].
Proof.
  intros Hpos Hnone. unfold result_of.
  rewrite get_top_users_run by done. cbn [fst]. f_equal.
  assert (filter (in_leaderboard_domain dom) (karma_transactions w) = [])
    as ->.
  { induction (karma_transactions w) as [|t docs IH]; [done|].
    rewrite filter_cons, decide_False by (apply Hnone; left).
    apply IH. intros x Hx. apply Hnone. by right. }
  apply Permutation_nil_r. rewrite <- (take_drop (Z.to_nat limit)).
  assert (sort_stage_total_points (-1) (tie_groups w) (group_by_user [])
          = []) as ->; [|by destruct (Z.to_nat limit)].
  apply Permutation_nil_r. by rewrite (sort_stage_perm (-1)).
Qed.

(** ** Identifiers and timestamps *)

Lemma mapM_create_cons transaction
    (rest : list (KarmaTransactionCreate P)) w :
  mapM create_transaction (transaction :: rest) w
  = match create_transaction transaction w with
    | (Ok x, w1) =>
        match mapM create_transaction rest w1 with
        | (Ok xs, w2) => (Ok (x :: xs), w2)
        | (Raise e, w2) => (Raise e, w2)
        end
    | (Raise e, w1) => (Raise e, w1)
    end.
Proof.
  cbn [mapM]. unfold mbind at 1, M_bind at 1.
  destruct (create_transaction transaction w) as [[x|e] w1]; [|done].
  unfold mbind at 1, M_bind at 1.
  by destruct (mapM create_transaction rest w1) as [[xs|e] w2].
Qed.

(** X11.  A sequence of [create_transaction] calls, the store accepting
    every write, appends one document per call to the collection in call
    order, each the returned entity with its timestamps cut to whole
    milliseconds, and returns entities whose ids are pairwise distinct and
    distinct from every id persisted before. *)
Theorem create_many_fresh_distinct_ids
    (transactions : list (KarmaTransactionCreate P)) w :
  ∃ entities w' stored,
    mapM create_transaction transactions w = (Ok entities, w')
    ∧ karma_transactions w' = karma_transactions w ++ stored
    ∧ KarmaTransaction_of <$> stored = as_stored <$> entities
    ∧ length entities = length transactions
    ∧ NoDup (id <$> entities)
    ∧ (∀ x, x ∈ entities →
         is_Some (id x) ∧ id x ∉ (d_id <$> karma_transactions w)).
Proof.
  revert w. induction transactions as [|transaction rest IH]; intros w.
  - exists [], w, []. rewrite app_nil_r.
    split; [done|]. split; [done|]. split; [done|]. split; [done|].
    split; [apply NoDup_nil_2|].
    intros x Hx. by apply not_elem_of_nil in Hx.
  - rewrite mapM_create_cons, create_transaction_run.
    set (returned1 := mkDoc _ _ _ _ _ _ _).
    set (w1 := mkWorld _ _ _ _ _).
    destruct (IH w1) as (xs & w2 & stored & Hrun & Hdocs & Hmap & Hlen
                         & Hnodup & Hfresh).
    rewrite Hrun. exists (KarmaTransaction_of returned1 :: xs), w2,
      (bson_document returned1 :: stored).
    split; [done|]. split.
    { rewrite Hdocs. cbn. by rewrite <- app_assoc. }
    split; [by rewrite !fmap_cons, Hmap|].
    split; [cbn; by rewrite Hlen|]. split.
    + rewrite fmap_cons. apply NoDup_cons. split; [|done].
      intros Hin. apply list_elem_of_fmap in Hin as (x & Hid & Hx).
      destruct (Hfresh x Hx) as [_ Hout]. apply Hout. rewrite <- Hid.
      cbn. rewrite fmap_app. apply elem_of_app. right. cbn. left.
    + intros x Hx. apply elem_of_cons in Hx as [->|Hx].
      * split; [by eexists|]. apply new_ObjectId_fresh.
      * destruct (Hfresh x Hx) as [Hsome Hout]. split; [done|].
        intros Hin. apply Hout. cbn. rewrite fmap_app.
        apply elem_of_app. by left.
Qed.

(** X12.  [create_transaction] keeps the ids of the collection unique:
    if no two persisted documents share an id before the call, none do
    after it. *)
Theorem create_transaction_keeps_ids_unique w transaction :
  NoDup (d_id <$> karma_transactions w) →
  NoDup (d_id <$>
           karma_transactions (world_after (create_transaction transaction) w)).
Proof.
  intros Hnodup. unfold world_after. rewrite create_transaction_run.
  cbn [snd karma_transactions]. rewrite fmap_app. apply NoDup_app.
  split; [done|]. split; [|apply NoDup_singleton].
  intros o Ho Hnew. cbn in Hnew. apply list_elem_of_singleton in Hnew.
  subst o. by apply new_ObjectId_fresh in Ho.
Qed.

(** X13.  On a clock that never runs backwards, [create_transaction] keeps
    the log chronological: if no persisted timestamp is ahead of the
    clock, this still holds after the call, and the document appended is
    at least as recent as every document persisted before. *)
Theorem create_transaction_keeps_log_chronological w transaction :
  (∀ n, clock w n ≤ clock w (S n)) →
  timestamps_behind_clock w →
  ∃ entity w',
    create_transaction transaction w = (Ok entity, w')
    ∧ timestamps_behind_clock w'
    ∧ (∀ n, clock w' n ≤ clock w' (S n))
    ∧ (∀ t, t ∈ karma_transactions w →
            d_created_at t ≤ created_at entity).
Proof.
  intros Hmono Hbehind. do 2 eexists.
  split; [apply create_transaction_run|]. cbn.
  pose proof (Hmono (clock_reads w)) as H1.
  pose proof (Hmono (S (clock_reads w))) as H2.
  split; [|split; [done|]].
  - intros t Ht. cbn in Ht. apply elem_of_app in Ht as [Ht|Ht].
    + destruct (Hbehind t Ht). cbn. lia.
    + apply list_elem_of_singleton in Ht. subst t. cbn.
      pose proof (bson_datetime_le (clock w (clock_reads w))).
      pose proof (bson_datetime_le (clock w (S (clock_reads w)))). lia.
  - intros t Ht. by destruct (Hbehind t Ht).
Qed.

(** ** Date ranges *)

Lemma filter_none {A} (Q : A → Prop) `{∀ y, Decision (Q y)} (l : list A) :
  (∀ y, y ∈ l → ¬ Q y) → filter Q l = [].
Proof.
  induction l as [|y l IH]; intros Hnone; [done|].
  rewrite filter_cons, decide_False by (apply Hnone; left).
  apply IH. intros z Hz. apply Hnone. by right.
Qed.

Lemma newest_first_nil w : newest_first w [] = [].
Proof. apply Permutation_nil_r. by rewrite newest_first_perm. Qed.

(** X14.  A date range whose end falls in an earlier millisecond than its
    start selects nothing: the karma totals are zero and the action lists
    empty, whatever the collection holds. *)
Theorem inverted_range_selects_nothing
    w (user_id dom : string) (start_date end_date : datetime) :
  bson_datetime end_date < bson_datetime start_date →
  result_of (get_user_karma user_id (Some start_date) (Some end_date)) w
  = Ok nzero
  ∧ result_of (get_user_karma_by_domain user_id dom
                 (Some start_date) (Some end_date)) w = Ok nzero
  ∧ result_of (get_user_actions user_id (Some start_date) (Some end_date)) w
    = Ok []
  ∧ result_of (get_user_actions_by_domain user_id dom
                 (Some start_date) (Some end_date)) w = Ok [].
Proof.
  intros Hinv. unfold result_of.
  rewrite get_user_karma_run, get_user_karma_by_domain_run,
    get_user_actions_run, get_user_actions_by_domain_run. cbn [fst].
  rewrite match_user_query_selected, match_user_domain_query_selected.
  rewrite !filter_none;
    [unfold sum_points; cbn [fmap list_fmap];
     by rewrite newest_first_nil, nsum_nil| |].
  - intros t _ [_ [Hs He]].
    specialize (Hs _ eq_refl). specialize (He _ eq_refl). lia.
  - intros t _ [_ [Hs He]].
    specialize (Hs _ eq_refl). specialize (He _ eq_refl). lia.
Qed.

Lemma on_day_date_of (user_id : string) (action : KarmaActionType)
    (day : Z) t :
  on_day user_id action day t
  ↔ by_user user_id t ∧ d_action_type t = action
    ∧ date_of (d_created_at t) = day.
Proof.
  unfold on_day, date_of, combine, time_of_day, usec_per_day.
  split.
  - intros (Hu & Ha & Hlo & Hhi). split; [done|]. split; [done|].
    Z.to_euclidean_division_equations. lia.
  - intros (Hu & Ha & Hday). split; [done|]. split; [done|].
    Z.to_euclidean_division_equations. lia.
Qed.

(** X16.  The daily check sees a new transaction at once: after
    [create_transaction], [get_user_actions_today] for the transaction's
    user and action type and any reference date on the day it was created
    returns what it returned before followed by the new entity as the
    store holds it; for any other user, action type or day it returns what
    it returned before. *)
Theorem create_transaction_seen_today
    w transaction (user_id : string) (action : KarmaActionType)
    (date : datetime) :
  ∃ entity w' old new,
    create_transaction transaction w = (Ok entity, w')
    ∧ result_of (get_user_actions_today user_id action date) w = Ok old
    ∧ result_of (get_user_actions_today user_id action date) w' = Ok new
    ∧ new
      = old
        ++ (if decide (ur_id (user entity) = user_id
                       ∧ action_type entity = action
                       ∧ date_of (created_at entity) = date_of date)
            then [as_stored entity] else []).
Proof.
  do 4 eexists. split; [apply create_transaction_run|].
  unfold result_of. rewrite !get_user_actions_today_run.
  cbn [fst karma_transactions]. split; [done|]. split; [done|].
  rewrite filter_snoc_decide, fmap_app. f_equal.
  set (returned := mkDoc _ _ _ _ _ _ _).
  pose proof (on_day_date_of user_id action (date_of date)
                (bson_document returned)) as Hiff.
  unfold by_user in Hiff. cbn in Hiff.
  rewrite date_of_bson_datetime in Hiff. cbn.
  repeat case_decide; first [done | tauto].
Qed.

(** X17.  The listing methods answer an empty selection with the empty
    list, not with an error. *)
Theorem actions_empty_when_nothing_matches
    w (user_id dom : string) (start_date end_date : option datetime)
    (action : KarmaActionType) (day time : Z) :
  ((∀ t, t ∈ karma_transactions w →
         ¬ selected user_id start_date end_date t) →
   result_of (get_user_actions user_id start_date end_date) w = Ok [])
  ∧ ((∀ t, t ∈ karma_transactions w →
           ¬ selected_in user_id dom start_date end_date t) →
     result_of (get_user_actions_by_domain user_id dom start_date end_date) w
     = Ok [])
  ∧ (0 ≤ time < usec_per_day →
     (∀ t, t ∈ karma_transactions w → ¬ on_day user_id action day t) →
     result_of (get_user_actions_today user_id action (combine day time)) w
     = Ok []).
Proof.
  unfold result_of. split; [|split].
  - intros Hnone. rewrite get_user_actions_run, match_user_query_selected.
    by rewrite filter_none, newest_first_nil.
  - intros Hnone.
    rewrite get_user_actions_by_domain_run, match_user_domain_query_selected.
    by rewrite filter_none, newest_first_nil.
  - intros Htime Hnone.
    rewrite get_user_actions_today_run, date_of_combine by done.
    by rewrite filter_none.
Qed.

Lemma range_within_ms (start_date end_date wider_start wider_end
                       : option datetime) :
  (∀ s e, start_date = Some s → end_date = Some e → s ≤ e) →
  (∀ t : datetime,
     in_range start_date end_date t → in_range wider_start wider_end t) →
  ∀ t : datetime, in_range_ms start_date end_date t →
       in_range_ms wider_start wider_end t.
Proof.
  intros Hproper Hwider t [Hs He]. split.
  - intros y Hy. destruct wider_start as [s'|]; [|done].
    injection Hy as <-. destruct start_date as [s|].
    + assert (in_range (Some s) end_date s) as Hin.
      { split; [intros ? [= <-]; lia | intros e Heq; by apply Hproper]. }
      apply Hwider in Hin as [Hlow _]. specialize (Hlow _ eq_refl).
      specialize (Hs _ eq_refl). pose proof (bson_datetime_mono s' s Hlow).
      lia.
    + exfalso. destruct end_date as [e|].
      * assert (in_range None (Some e) (Z.min e (s' - 1))) as Hin.
        { split; [intros ? [=] | intros ? [= <-]; lia]. }
        apply Hwider in Hin as [Hlow _]. specialize (Hlow _ eq_refl). lia.
      * assert (in_range None None (s' - 1)) as Hin
          by apply in_range_unbounded.
        apply Hwider in Hin as [Hlow _]. specialize (Hlow _ eq_refl). lia.
  - intros y Hy. destruct wider_end as [e'|]; [|done].
    injection Hy as <-. destruct end_date as [e|].
    + assert (in_range start_date (Some e) e) as Hin.
      { split; [intros s Heq; by apply Hproper | intros ? [= <-]; lia]. }
      apply Hwider in Hin as [_ Hhigh]. specialize (Hhigh _ eq_refl).
      specialize (He _ eq_refl). pose proof (bson_datetime_mono e e' Hhigh).
      lia.
    + exfalso. destruct start_date as [s|].
      * assert (in_range (Some s) None (Z.max s (e' + 1))) as Hin.
        { split; [intros ? [= <-]; lia | intros ? [=]]. }
        apply Hwider in Hin as [_ Hhigh]. specialize (Hhigh _ eq_refl). lia.
      * assert (in_range None None (e' + 1)) as Hin
          by apply in_range_unbounded.
        apply Hwider in Hin as [_ Hhigh]. specialize (Hhigh _ eq_refl). lia.
Qed.

(** X18.  Widening a date range whose bounds are in order never loses an
    action: every entity listed for the range is listed for any range
    that contains it. *)
Theorem actions_grow_with_range
    w (user_id dom : string)
    (start_date end_date wider_start wider_end : option datetime) :
  (∀ s e, start_date = Some s → end_date = Some e → s ≤ e) →
  (∀ t : datetime,
     in_range start_date end_date t → in_range wider_start wider_end t) →
  ∃ l wider l_in wider_in,
    result_of (get_user_actions user_id start_date end_date) w = Ok l
    ∧ result_of (get_user_actions user_id wider_start wider_end) w = Ok wider
    ∧ result_of (get_user_actions_by_domain user_id dom start_date end_date) w
      = Ok l_in
    ∧ result_of (get_user_actions_by_domain user_id dom wider_start wider_end)
        w = Ok wider_in
    ∧ l ⊆ wider
    ∧ l_in ⊆ wider_in.
Proof.
  intros Hproper Hwider. unfold result_of.
  rewrite !get_user_actions_run, !get_user_actions_by_domain_run. cbn [fst].
  rewrite !match_user_query_selected, !match_user_domain_query_selected.
  do 4 eexists. do 4 (split; [done|]).
  pose proof (range_within_ms _ _ _ _ Hproper Hwider) as Hms.
  split; intros x; rewrite !newest_first_perm, !list_elem_of_fmap;
    intros (t & -> & Ht); exists t; (split; [done|]);
    apply list_elem_of_filter in Ht as [Hsel Hin];
    apply list_elem_of_filter; (split; [|done]).
  - destruct Hsel as [Hu Hr]. split; [done|]. by apply Hms.
  - destruct Hsel as [Hu Hr]. split; [done|]. by apply Hms.
Qed.

(** X19.  [get_user_actions_today] lists exactly the entities that
    [get_user_actions] lists for the day's first to last microsecond and
    that have the requested action type. *)
Theorem actions_today_within_day_range
    w (user_id : string) (action : KarmaActionType) (day time : Z) :
  0 ≤ time < usec_per_day →
  ∃ today whole_day,
    result_of (get_user_actions_today user_id action (combine day time)) w
    = Ok today
    ∧ result_of (get_user_actions user_id
                   (Some (combine day time_min))
                   (Some (combine day time_max))) w = Ok whole_day
    ∧ ∀ x, x ∈ today ↔ x ∈ whole_day ∧ action_type x = action.
Proof.
  intros Htime. unfold result_of.
  rewrite get_user_actions_today_run, date_of_combine by done.
  rewrite get_user_actions_run, match_user_query_selected. cbn [fst].
  do 2 eexists. split; [done|]. split; [done|].
  intros x. rewrite newest_first_perm, !list_elem_of_fmap. split.
  - intros (t & -> & Ht). apply list_elem_of_filter in Ht as [Hday Hin].
    destruct Hday as (Hu & Ha & Hrange). split; [|done].
    exists t. split; [done|]. apply list_elem_of_filter. split; [|done].
    split; [done|]. apply day_range_ms in Hrange as [Hlo Hhi].
    split; intros ? [= <-]; done.
  - intros [(t & -> & Ht) Ha]. exists t. split; [done|].
    apply list_elem_of_filter in Ht as [[Hu [Hs He]] Hin].
    apply list_elem_of_filter. split; [|done].
    split; [done|]. split; [done|].
    apply day_range_ms. split; [by apply Hs | by apply He].
Qed.

End Properties.

(** * The properties at concrete inputs *)

Global Instance Z_exact : ExactArithmetic Z.
Proof. split; intros; cbn; lia. Qed.

Lemma sample_docs_cases (Q : Document float → Prop) :
  Q (mkDoc (Some 1%N) alice 5%float "LIKE" "x" 10000 10000) →
  Q (mkDoc (Some 2%N) alice 3%float "LIKE" "y" 20000 20000) →
  Q (mkDoc (Some 3%N) bob 10%float "POST" "x" 30000 30000) →
  ∀ t, t ∈ karma_transactions sample_world → Q t.
Proof.
  intros H1 H2 H3 t Ht. cbn in Ht.
  repeat (apply elem_of_cons in Ht as [->|Ht]; [done|]).
  by apply not_elem_of_nil in Ht.
Defined.

Lemma C1_witness :
  result_of (get_user_karma "C" None None) sample_world = Ok 0%float
  ∧ result_of (get_user_karma_by_domain "B" "y" (Some 0) None) sample_world
    = Ok 0%float.
Proof.
  split.
  - refine (proj1 (C1_karma_zero_on_empty_match
                     sample_world "C" "y" None None) _).
    apply sample_docs_cases; intros [Hu _]; discriminate Hu.
  - refine (proj2 (C1_karma_zero_on_empty_match
                     sample_world "B" "y" (Some 0) None) _).
    apply sample_docs_cases; intros [[Hu Hd] _];
      first [discriminate Hu | discriminate Hd].
Defined.

(** A lower bound half a millisecond after a stored transaction: no
    persisted transaction lies in the range as written, yet the store,
    which cuts the bound to the millisecond, selects the transaction and
    the total is not zero. *)
Lemma C1_bound_cut_counterexample :
  (∀ t, t ∈ karma_transactions one_doc_world →
        ¬ (by_user "A" t ∧ in_range (Some 10500) None (d_created_at t)))
  ∧ result_of (get_user_karma "A" (Some 10500) None) one_doc_world
    = Ok 5%float
  ∧ result_of (get_user_karma "A" (Some 10500) None) one_doc_world
    ≠ Ok 0%float.
Proof.
  split; [|split].
  - intros t Ht [_ [Hs _]]. cbn in Ht. apply list_elem_of_singleton in Ht.
    subst t. specialize (Hs _ eq_refl). cbn in Hs. lia.
  - vm_compute. reflexivity.
  - vm_compute. intros Heq.
    assert (float_key 5 = float_key 0) as Hkey by congruence.
    vm_compute in Hkey. discriminate Hkey.
Qed.

Lemma C2_witness :
  mkDoc (Some 1%N) alice 5%float "LIKE" "x" 10000 10000
  ∈ match_stage (user_query "A" (Some 10000) (Some 20000))
      (karma_transactions sample_world)
  ∧ mkDoc (Some 2%N) alice 3%float "LIKE" "y" 20000 20000
    ∈ match_stage (user_domain_query "A" "y" (Some 10000) (Some 20000))
        (karma_transactions sample_world).
Proof.
  split.
  - apply (C2_date_range_inclusive sample_world "A" "x"
             (Some 10000) (Some 20000)
             (mkDoc (Some 1%N) alice 5%float "LIKE" "x" 10000 10000)).
    + left.
    + reflexivity.
    + left. reflexivity.
    + intros s e [= <-] [= <-]. lia.
  - apply (C2_date_range_inclusive sample_world "A" "y"
             (Some 10000) (Some 20000)
             (mkDoc (Some 2%N) alice 3%float "LIKE" "y" 20000 20000)).
    + right. left.
    + reflexivity.
    + right. reflexivity.
    + intros s e [= <-] [= <-]. lia.
    + reflexivity.
Defined.

Lemma C4_witness :
  0 ≤ 15 < usec_per_day
  ∧ ∃ l,
      result_of (get_user_actions_today "A" "LIKE" (combine 0 15)) sample_world
      = Ok l
      ∧ l = KarmaTransaction_of <$>
              filter (on_day "A" "LIKE" 0) (karma_transactions sample_world).
Proof.
  assert (0 ≤ 15 < usec_per_day) as Htime by (unfold usec_per_day; lia).
  split; [exact Htime|].
  destruct (C4_actions_today_exact sample_world "A" "LIKE" 0 15 Htime)
    as (l & Hrun & Hexact & _).
  exists l. split; [exact Hrun | exact Hexact].
Defined.

Lemma C5_witness :
  0 < 3
  ∧ ∃ res,
      result_of (get_top_users 3 None) five_users_world = Ok res
      ∧ length res
        = Nat.min 3 (size (user_ids
                             (filter (in_leaderboard_domain None)
                                     (karma_transactions five_users_world)))).
Proof.
  assert (0 < 3) as Hpos by lia. split; [exact Hpos|].
  destruct (C5_top_users_sorted_and_truncated five_users_world 3 None Hpos)
    as (res & Hrun & Hlen & _).
  exists res. split; [exact Hrun | exact Hlen].
Defined.



(** The same totals come out of a store that sums with compensation. *)
Example rounding_with_compensated_sum :
  result_of (get_user_karma (Numeric0 := float_compensated) "A" None None)
            rounding_world
  = Ok 9007199254740994%float
  ∧ result_of
      (mapM (λ d, get_user_karma_by_domain (Numeric0 := float_compensated)
                    "A" d None None)
            (elements (user_domains "A" (karma_transactions rounding_world))))
      rounding_world
    = Ok [1%float; 9007199254740992%float].
Proof. split; vm_compute; reflexivity. Qed.

Lemma C7_witness :
  (∀ n, clock sample_world n ≤ clock sample_world (S n))
  ∧ ∃ before w1 entity w2 oid,
      now sample_world = (Ok before, w1)
      ∧ create_transaction sample_create w1 = (Ok entity, w2)
      ∧ id entity = Some oid
      ∧ (Some oid ∉ (d_id <$> karma_transactions sample_world))
      ∧ before ≤ created_at entity ≤ updated_at entity.
Proof.
  assert (∀ n, clock sample_world n ≤ clock sample_world (S n)) as Hmono.
  { intros n. cbn. unfold ticking_clock. lia. }
  split; [exact Hmono|].
  destruct (C7_create_transaction_entity sample_world sample_create Hmono)
    as (before & w1 & entity & w2 & oid & Hnow & Hrun & Hid & Hfresh & Hle & _).
  exists before, w1, entity, w2, oid. repeat split; tauto.
Defined.

(** On a clock that advances between two readings the entity's two
    timestamps differ. *)
Lemma C7_timestamps_differ :
  ∃ entity,
    result_of (create_transaction sample_create) empty_world = Ok entity
    ∧ created_at entity = 0 ∧ updated_at entity = 1
    ∧ created_at entity ≠ updated_at entity.
Proof. eexists. split; [reflexivity|]. cbn. done. Qed.

Lemma C8_witness :
  0 ≤ 0
  ∧ get_top_users 0 None sample_world
    = (Raise OperationFailure, sample_world).
Proof.
  split; [lia|].
  apply (C8_top_users_nonpositive_limit sample_world 0 None). lia.
Defined.

(** With limit zero the call does not return the empty sequence. *)
Lemma C8_zero_limit_not_empty_sequence :
  result_of (get_top_users 0 None) sample_world ≠ Ok [].
Proof. vm_compute. discriminate. Qed.

(** The scenario of the specification: A earns 5 in x and 3 in y, B earns
    10 in x. *)
Example scenario_karma :
  result_of (get_user_karma "A" None None) sample_world = Ok 8%float
  ∧ result_of (get_user_karma_by_domain "A" "x" None None) sample_world
    = Ok 5%float.
Proof. split; vm_compute; reflexivity. Qed.

Example scenario_top_users :
  result_of (get_top_users 10 None) sample_world
  = Ok [mkUserTotal "B" 10%float bob; mkUserTotal "A" 8%float alice].
Proof. vm_compute. reflexivity. Qed.

(** The three highest of five distinct totals, highest first. *)
Example top_three_of_five :
  result_of (get_top_users 3 None) five_users_world
  = Ok [mkUserTotal "u2" 40%float (mkUser "u2" "two");
        mkUserTotal "u4" 22%float (mkUser "u4" "four");
        mkUserTotal "u3" 15%float (mkUser "u3" "three")].
Proof. vm_compute. reflexivity. Qed.

Example actions_newest_first :
  result_of (get_user_actions "A" None None) sample_world
  = Ok [mkTxn (Some 2%N) alice 3%float "LIKE" "y" 20000 20000;
        mkTxn (Some 1%N) alice 5%float "LIKE" "x" 10000 10000].
Proof. vm_compute. reflexivity. Qed.

(** What is stored has whole milliseconds; what is returned has not. *)
Example stored_in_whole_milliseconds :
  let w := mkWorld [] (λ n, 1500 + 700 * Z.of_nat n) 0 as_scanned as_scanned in
  result_of (create_transaction sample_create) w
  = Ok (mkTxn (Some 1%N) alice 5%float "LIKE" "x" 1500 2200)
  ∧ karma_transactions (world_after (create_transaction sample_create) w)
    = [mkDoc (Some 1%N) alice 5%float "LIKE" "x" 1000 2000].
Proof. split; vm_compute; reflexivity. Qed.

Lemma create_transaction_adds_to_karma_witness :
  ExactArithmetic Z
  ∧ ∃ entity w' before after,
      create_transaction (mkCreate alice 7 "LIKE" "x") integer_world
      = (Ok entity, w')
      ∧ result_of (get_user_karma "A" None None) integer_world = Ok before
      ∧ result_of (get_user_karma "A" None None) w' = Ok after
      ∧ after = before + 7.
Proof.
  split; [exact Z_exact|].
  destruct (create_transaction_adds_to_karma
              integer_world (mkCreate alice 7 "LIKE" "x") "A" None None)
    as (entity & w' & before & after & Hcreate & Hold & Hnew & _ & Hadd).
  exists entity, w', before, after.
  split; [exact Hcreate|]. split; [exact Hold|]. split; [exact Hnew|].
  rewrite (Hadd Z_exact). rewrite create_transaction_run in Hcreate.
  injection Hcreate as <- _. reflexivity.
Defined.

Lemma create_transaction_adds_to_karma_by_domain_witness :
  ExactArithmetic Z
  ∧ ∃ entity w' before after,
      create_transaction (mkCreate alice 7 "LIKE" "x") integer_world
      = (Ok entity, w')
      ∧ result_of (get_user_karma_by_domain "A" "y" None None) integer_world
        = Ok before
      ∧ result_of (get_user_karma_by_domain "A" "y" None None) w' = Ok after
      ∧ after = before.
Proof.
  split; [exact Z_exact|].
  destruct (create_transaction_adds_to_karma_by_domain
              integer_world (mkCreate alice 7 "LIKE" "x") "A" "y" None None)
    as (entity & w' & before & after & Hcreate & Hold & Hnew & _ & Hadd).
  exists entity, w', before, after.
  split; [exact Hcreate|]. split; [exact Hold|]. split; [exact Hnew|].
  rewrite (Hadd Z_exact). rewrite create_transaction_run in Hcreate.
  injection Hcreate as <- _. reflexivity.
Defined.

Lemma create_transaction_seen_by_actions_witness :
  ∃ entity w' old new,
    create_transaction sample_create sample_world = (Ok entity, w')
    ∧ result_of (get_user_actions "A" None None) sample_world = Ok old
    ∧ result_of (get_user_actions "A" None None) w' = Ok new
    ∧ new ≡ₚ as_stored entity :: old.
Proof.
  destruct (create_transaction_seen_by_actions
              sample_world sample_create "A" "x" None None)
    as (entity & w' & old & new & old_in & new_in
        & Hcreate & Hold & Hnew & _ & _ & Hseen & _).
  exists entity, w', old, new.
  split; [exact Hcreate|]. split; [exact Hold|]. split; [exact Hnew|].
  apply Hseen. rewrite create_transaction_run in Hcreate.
  injection Hcreate as <- _. split; [reflexivity | apply in_range_ms_unbounded].
Defined.

Lemma top_users_totals_are_karma_witness :
  0 < 3
  ∧ ∃ res,
      result_of (get_top_users 3 None) sample_world = Ok res
      ∧ ∀ r, r ∈ res →
             result_of (get_user_karma (ut_id r) None None) sample_world
             = Ok (total_points r).
Proof.
  assert (0 < 3) as Hpos by lia. split; [exact Hpos|].
  destruct (top_users_totals_are_karma sample_world 3 "x" Hpos)
    as (res & res_in & Hrun & _ & Hkarma & _).
  exists res. split; [exact Hrun | exact Hkarma].
Defined.

Lemma top_users_complete_witness :
  ∃ res,
    result_of (get_top_users 10 None) five_users_world = Ok res
    ∧ (∀ t, t ∈ karma_transactions five_users_world →
            in_leaderboard_domain None t →
            ur_id (d_user t) ∈ (ut_id <$> res))
    ∧ length res
      = size (user_ids (filter (in_leaderboard_domain None)
                               (karma_transactions five_users_world))).
Proof.
  apply (top_users_complete_when_limit_suffices five_users_world 10 None).
  - lia.
  - vm_compute. lia.
Defined.

Lemma top_users_empty_witness :
  result_of (get_top_users 5 (Some "z")) sample_world = Ok [].
Proof.
  apply (top_users_empty_when_nothing_matches sample_world 5 (Some "z")).
  - lia.
  - apply sample_docs_cases; intros H; specialize (H "z" eq_refl);
      cbn in H; discriminate H; discriminate.
Defined.

Lemma create_transaction_keeps_ids_unique_witness :
  NoDup (d_id <$> karma_transactions sample_world)
  ∧ NoDup (d_id <$>
             karma_transactions
               (world_after (create_transaction sample_create) sample_world)).
Proof.
  assert (NoDup (d_id <$> karma_transactions sample_world)) as Hnodup.
  { apply (bool_decide_unpack _). vm_compute. exact I. }
  split; [exact Hnodup|].
  apply (create_transaction_keeps_ids_unique sample_world sample_create Hnodup).
Defined.

Lemma create_transaction_keeps_log_chronological_witness :
  ∃ entity w',
    create_transaction sample_create later_world = (Ok entity, w')
    ∧ timestamps_behind_clock w'
    ∧ (∀ n, clock w' n ≤ clock w' (S n))
    ∧ (∀ t, t ∈ karma_transactions later_world →
            d_created_at t ≤ created_at entity).
Proof.
  apply (create_transaction_keeps_log_chronological later_world sample_create).
  - intros n. cbn. unfold later_clock. lia.
  - unfold timestamps_behind_clock.
    change (karma_transactions later_world)
      with (karma_transactions sample_world).
    apply sample_docs_cases; cbn; unfold later_clock; lia.
Defined.

Lemma inverted_range_witness :
  result_of (get_user_karma "A" (Some 20000) (Some 10000)) sample_world
  = Ok 0%float
  ∧ result_of (get_user_actions "A" (Some 20000) (Some 10000)) sample_world
    = Ok [].
Proof.
  destruct (inverted_range_selects_nothing sample_world "A" "x" 20000 10000)
    as (Hkarma & _ & Hactions & _); [reflexivity|].
  split; [exact Hkarma | exact Hactions].
Defined.

(** A range whose bounds are out of order within one millisecond is no
    empty range for the store: both bounds are cut to that millisecond. *)
Example inverted_range_within_a_millisecond :
  result_of (get_user_karma "A" (Some 10700) (Some 10300)) one_doc_world
  = Ok 5%float
  ∧ result_of (get_user_actions "A" (Some 50000) (Some 60000)) one_doc_world
    = Ok [].
Proof. split; vm_compute; reflexivity. Qed.

Lemma actions_empty_witness :
  result_of (get_user_actions "C" None None) sample_world = Ok [].
Proof.
  apply (proj1 (actions_empty_when_nothing_matches
                  sample_world "C" "x" None None "LIKE" 0 0)).
  apply sample_docs_cases; intros [Hu _]; discriminate Hu.
Defined.

Lemma actions_grow_with_range_witness :
  ∃ l wider,
    result_of (get_user_actions "A" (Some 10000) (Some 15000)) sample_world
    = Ok l
    ∧ result_of (get_user_actions "A" None None) sample_world = Ok wider
    ∧ l ⊆ wider.
Proof.
  destruct (actions_grow_with_range sample_world "A" "x"
              (Some 10000) (Some 15000) None None)
    as (l & wider & _ & _ & H1 & H2 & _ & _ & Hsub & _).
  - intros s e [= <-] [= <-]. lia.
  - intros t _. apply in_range_unbounded.
  - exists l, wider. repeat split; assumption.
Defined.

Lemma actions_today_within_day_range_witness :
  0 ≤ 15 < usec_per_day
  ∧ ∃ today whole_day,
      result_of (get_user_actions_today "A" "LIKE" (combine 0 15)) sample_world
      = Ok today
      ∧ result_of (get_user_actions "A"
                     (Some (combine 0 time_min))
                     (Some (combine 0 time_max))) sample_world = Ok whole_day
      ∧ ∀ x, x ∈ today ↔ x ∈ whole_day ∧ action_type x = "LIKE".
Proof.
  assert (0 ≤ 15 < usec_per_day) as Htime by (unfold usec_per_day; lia).
  split; [exact Htime|].
  apply (actions_today_within_day_range sample_world "A" "LIKE" 0 15 Htime).
Defined.
